(** * Sales reconciliation pipeline: transaction cleaning, revenue view and
    combo explosion

    A shallow embedding of the data-preparation code of [sales_analysis.py]
    (the top-level script, Part 1) and of [dashboard.py] ([load_data]), and the
    properties of the two views they build.

    Modelling conventions.
    - A pandas cell is a [cell]: a missing value, a string or a number.
      Numbers are rationals, compared by value ([Qeq_bool]); every finite
      float64 and int64 is one.  No arithmetic other than [combo_qty * 1] is
      performed on them by the code modelled here.
    - A row (a pandas Series taken from a frame) is a finite map from column
      labels to cells; a label that is not bound reads as a missing value,
      which is what pandas puts there when frames with different columns are
      put together.
    - A DataFrame is the list of its column labels (distinct, in order) and
      the list of its rows.  The row index is not modelled: the code never
      reads it.  Column dtypes are not modelled.
    - Python exceptions are values of [exn]; a computation that may raise
      returns a [result].
    - Library functions whose results the code only stores (date parsing,
      number parsing, calendar accessors, number formatting) are the fields of
      [PandasLib]. *)

From Stdlib Require Import QArith.
From stdpp Require Import base decidable option list strings numbers gmap fin_maps.

#[global] Instance Q_eq_dec : EqDecision Q.
Proof. solve_decision. Defined.

(* ===================================================================== *)
(** * The fragment of pandas used by the pipeline *)
(* ===================================================================== *)

Module Pandas.

Inductive cell :=
  | NaN
  | Str (s : string)
  | Num (x : Q).

#[global] Instance cell_eq_dec : EqDecision cell.
Proof. solve_decision. Defined.

#[global] Instance cell_inhabited : Inhabited cell := populate NaN.

(** [pd.isna] / [pd.notna] on a scalar. *)
Definition isna (c : cell) : bool :=
  match c with NaN => true | _ => false end.

Definition notna (c : cell) : bool := negb (isna c).

(** Elementwise [==]: a missing value is equal to nothing, itself included. *)
Definition py_eq (a b : cell) : bool :=
  match a, b with
  | Str s, Str t => bool_decide (s = t)
  | Num x, Num y => Qeq_bool x y
  | _, _ => false
  end.

(** Key equality of the hash-based operations ([merge], [isin], [unique],
    [drop_duplicates]): as [==], but missing values match one another. *)
Definition same_key (a b : cell) : bool :=
  match a, b with
  | NaN, NaN => true
  | _, _ => py_eq a b
  end.

Fixpoint str_repeat (s : string) (n : nat) : string :=
  match n with
  | O => EmptyString
  | S n => s +:+ str_repeat s n
  end.

(** [c * n] for an integer literal [n]. *)
Definition mul_int (c : cell) (n : Z) : cell :=
  match c with
  | NaN => NaN
  | Num x => Num (x * inject_Z n)
  | Str s => Str (str_repeat s (Z.to_nat n))
  end.

Abbreviation Row := (gmap string cell).

(** [r[c]] when every label of the frame is bound, a missing value otherwise. *)
Definition cellof (r : Row) (c : string) : cell := default NaN (r !! c).

Record DataFrame := mkDataFrame {
  columns : list string;
  rows : list Row
}.

Definition has_column (df : DataFrame) (c : string) : bool :=
  bool_decide (c ∈ columns df).

(** ** Exceptions *)

Inductive exn :=
  | KeyError (labels : list string)
  | ValueError (msg : string)
  | Exception (msg : string).

Inductive result (A : Type) :=
  | Ok (a : A)
  | Raise (e : exn).
#[global] Arguments Ok {A} a.
#[global] Arguments Raise {A} e.

#[global] Instance result_ret : MRet result := λ A a, Ok a.
#[global] Instance result_bind : MBind result := λ A B f m,
  match m with
  | Ok a => f a
  | Raise e => Raise e
  end.

(** ** Library functions left abstract *)

Class PandasLib := {
  (** [pd.to_datetime(column, errors='coerce')] at one element; the column is
      passed too, since the format may be inferred from it. *)
  to_datetime : list cell → cell → cell;
  (** the number an element is coerced to by [pd.to_numeric(..., errors='coerce')],
      if any *)
  to_number : cell → option Q;
  dt_year : cell → cell;
  dt_month : cell → cell;
  dt_period_month_str : cell → cell;
  dt_isocalendar_week : cell → cell;
  dt_day_name : cell → cell;
  dt_hour : cell → cell;
  (** [str] of a number *)
  str_of_num : Q → string
}.

(** ** Column access and assignment *)

(** [df[c]] *)
Definition getcol (df : DataFrame) (c : string) : result (list cell) :=
  if has_column df c then Ok ((λ r, cellof r c) <$> rows df)
  else Raise (KeyError [c]).

(** [df[c] = s] for a series [s] aligned with [df], given by its value at
    each row. *)
Definition assign (c : string) (f : Row → cell) (df : DataFrame) : DataFrame :=
  {| columns := if has_column df c then columns df else columns df ++ [c];
     rows := (λ r, <[c := f r]> r) <$> rows df |}.

(** [df[dst] = g(df[src])] for an elementwise [g]. *)
Definition assign_from (dst src : string) (g : cell → cell) (df : DataFrame)
  : result DataFrame :=
  if has_column df src then Ok (assign dst (λ r, g (cellof r src)) df)
  else Raise (KeyError [src]).

(** [for col in cols: df[col] = g(df[col])] *)
Fixpoint for_each_col (g : cell → cell) (cols : list string) (df : DataFrame)
  : result DataFrame :=
  match cols with
  | [] => Ok df
  | col :: cols => df ← assign_from col col g df; for_each_col g cols df
  end.

(** The labels of a row to which the labels [added] were assigned in turn:
    a label that is new is put at the end.  [pd.DataFrame(list_of_rows)]
    takes its columns from them. *)
Definition series_labels (cols added : list string) : list string :=
  foldl (λ acc c, if bool_decide (c ∈ acc) then acc else acc ++ [c]) cols added.

(** [df[df[c] == v]] *)
Definition where_eq (c : string) (v : cell) (df : DataFrame) : result DataFrame :=
  if has_column df c then
    Ok {| columns := columns df;
          rows := filter (λ r, py_eq (cellof r c) v) (rows df) |}
  else Raise (KeyError [c]).

(** [series.unique()] *)
Fixpoint unique_from (seen : list cell) (l : list cell) : list cell :=
  match l with
  | [] => []
  | x :: l =>
      if existsb (same_key x) seen then unique_from seen l
      else x :: unique_from (x :: seen) l
  end.

Definition unique (l : list cell) : list cell := unique_from [] l.

(** [x in values] as [isin] decides it. *)
Definition isin (values : list cell) (x : cell) : bool :=
  existsb (same_key x) values.

(** [df[df[c].isin(values)]] and [df[~df[c].isin(values)]] *)
Definition where_isin (c : string) (values : list cell) (df : DataFrame)
  : result DataFrame :=
  if has_column df c then
    Ok {| columns := columns df;
          rows := filter (λ r, isin values (cellof r c)) (rows df) |}
  else Raise (KeyError [c]).

Definition where_not_isin (c : string) (values : list cell) (df : DataFrame)
  : result DataFrame :=
  if has_column df c then
    Ok {| columns := columns df;
          rows := filter (λ r, negb (isin values (cellof r c))) (rows df) |}
  else Raise (KeyError [c]).

(** [df[[c1, ..., cn]]] *)
Definition select (cs : list string) (df : DataFrame) : result DataFrame :=
  match filter (λ c, c ∉ columns df) cs with
  | [] =>
      Ok {| columns := cs;
            rows := (λ r, list_to_map ((λ c, (c, cellof r c)) <$> cs)) <$> rows df |}
  | missing => Raise (KeyError missing)
  end.

(** [df.columns = new]: the columns are renamed by position. *)
Definition set_columns (new : list string) (df : DataFrame) : result DataFrame :=
  if bool_decide (length new = length (columns df)) then
    Ok {| columns := new;
          rows := (λ r, list_to_map (zip new (cellof r <$> columns df))) <$> rows df |}
  else Raise (ValueError "Length mismatch").

(** [df.drop_duplicates(subset=[c])]: the first row of each key is kept. *)
Fixpoint drop_dup_rows (key : Row → cell) (seen : list cell) (rs : list Row)
  : list Row :=
  match rs with
  | [] => []
  | r :: rs =>
      if existsb (same_key (key r)) seen then drop_dup_rows key seen rs
      else r :: drop_dup_rows key (key r :: seen) rs
  end.

Definition drop_duplicates (c : string) (df : DataFrame) : result DataFrame :=
  if has_column df c then
    Ok {| columns := columns df;
          rows := drop_dup_rows (λ r, cellof r c) [] (rows df) |}
  else Raise (KeyError [c]).

(** [df.drop(columns=cs, errors='ignore')] *)
Definition drop_columns (cs : list string) (df : DataFrame) : DataFrame :=
  {| columns := filter (λ c, c ∉ cs) (columns df);
     rows := (λ r, foldr delete r cs) <$> rows df |}.

(** ** [left.merge(right, on=on, how='left')]

    Every left row is kept, in order, once per right row with the same key,
    and once with missing values when there is none.  A column other than
    the key that both frames have is renamed with the suffixes [_x] and [_y]. *)

Definition suffixed (overlap : list string) (sfx : string) (c : string) : string :=
  if bool_decide (c ∈ overlap) then c +:+ sfx else c.

Definition merge_row (overlap rcols : list string) (l : Row) (ro : option Row) : Row :=
  foldr (λ c acc, <[suffixed overlap "_y" c := from_option (λ r, cellof r c) NaN ro]> acc)
        (foldr (λ c acc, <[c +:+ "_x" := cellof l c]> (delete c acc)) l overlap)
        rcols.

Definition merge_rows (on : string) (overlap rcols : list string)
    (ls rs : list Row) : list Row :=
  flat_map (λ l,
    match filter (λ r, same_key (cellof l on) (cellof r on)) rs with
    | [] => [merge_row overlap rcols l None]
    | ms => (λ r, merge_row overlap rcols l (Some r)) <$> ms
    end) ls.

Definition merge_left (left right : DataFrame) (on : string) : result DataFrame :=
  if has_column left on && has_column right on then
    let rcols := filter (λ c, c ≠ on) (columns right) in
    let overlap := filter (λ c, c ∈ columns left) rcols in
    Ok {| columns := (suffixed overlap "_x" <$> columns left)
                       ++ (suffixed overlap "_y" <$> rcols);
          rows := merge_rows on overlap rcols (rows left) (rows right) |}
  else Raise (KeyError [on]).

(** ** Missing values and conversions *)

Definition fill (v : cell) (x : cell) : cell := if isna x then v else x.

(** [df[c] = df[c].fillna(v)] *)
Definition fillna (c : string) (v : cell) (df : DataFrame) : result DataFrame :=
  assign_from c c (fill v) df.

(** [df[c] = df[c].fillna(df[src])] *)
Definition fillna_from (c src : string) (df : DataFrame) : result DataFrame :=
  if has_column df c then
    if has_column df src then
      Ok (assign c (λ r, fill (cellof r src) (cellof r c)) df)
    else Raise (KeyError [src])
  else Raise (KeyError [c]).

(** [x] as [astype(str)] leaves it *)
Definition as_str `{PandasLib} (x : cell) : cell :=
  match x with
  | NaN => Str "nan"
  | Str s => Str s
  | Num q => Str (str_of_num q)
  end.

(** [pd.to_numeric(x, errors='coerce')] at one element *)
Definition to_numeric `{PandasLib} (x : cell) : cell :=
  match to_number x with
  | Some q => Num q
  | None => NaN
  end.

(** [pd.concat([a, b], ignore_index=True)] *)
Definition pd_concat (a b : DataFrame) : DataFrame :=
  {| columns := columns a ++ filter (λ c, c ∉ columns a) (columns b);
     rows := rows a ++ rows b |}.

(** [series.sum()]: missing values are skipped. *)
Definition series_sum (l : list cell) : Q :=
  foldl (λ acc x, match x with Num q => (acc + q)%Q | _ => acc end) 0%Q l.

End Pandas.

(* ===================================================================== *)
(** * [dashboard.py]: [load_data] *)
(* ===================================================================== *)

Module Dashboard.
Import Pandas.

(** What [load_from_google_sheets] and [load_from_excel] return: the three
    sheets, or the text of the exception they caught. *)
Inductive loaded :=
  | Sheets (df_sales df_name_ref df_combo_ref : DataFrame)
  | LoadFailed (error : string).

(** The world [load_data] reads. *)
Record source := {
  GSHEETS_AVAILABLE : bool;
  has_gcp_service_account : bool;   (* ["gcp_service_account" in st.secrets] *)
  load_from_google_sheets : loaded;
  load_from_excel : loaded
}.

(** The Streamlit calls [load_data] makes, in order. *)
Inductive st_call :=
  | sidebar_success (body : string)
  | sidebar_warning_google_sheets (error : string)
      (* f"⚠️ Google Sheets error: {error}. Using local file..." *)
  | sidebar_info (body : string)
  | st_error_loading_data (e : exn).
      (* f"Error loading data: {str(e)}" *)

Definition numeric_cols : list string :=
  ["Price"; "Qty."; "Sub Total"; "Discount"; "Tax"; "Final Total"].

(** [lambda x: 'Delivery' if x == 'Swiggy' else 'In-Shop'] *)
Definition channel_of_area (x : cell) : cell :=
  if py_eq x (Str "Swiggy") then Str "Delivery" else Str "In-Shop".

Section with_lib.
Context `{PandasLib}.

(** Lines 101-116: choose the source, report it, fail when there is none. *)
Definition load_sources (src : source) (use_google_sheets : bool)
  : list st_call * result (DataFrame * DataFrame * DataFrame) :=
  let '(calls, got) :=
    if use_google_sheets && GSHEETS_AVAILABLE src && has_gcp_service_account src then
      match load_from_google_sheets src with
      | Sheets _ _ _ as got =>
          ([sidebar_success "📊 Data loaded from Google Sheets"], got)
      | LoadFailed error =>
          ([sidebar_warning_google_sheets error], load_from_excel src)
      end
    else
      match load_from_excel src with
      | Sheets _ _ _ as got =>
          ([sidebar_info "📁 Data loaded from local Excel file"], got)
      | LoadFailed _ as got => ([], got)
      end in
  match got with
  | Sheets df_sales df_name_ref df_combo_ref =>
      (calls, Ok (df_sales, df_name_ref, df_combo_ref))
  | LoadFailed error =>
      (calls, Raise (Exception (if bool_decide (error = EmptyString)
                                then "Failed to load data from any source"
                                else error)))
  end.

(** Lines 119-142: [# Clean df_sales] up to the sales channel. *)
Definition clean_sales (df_sales : DataFrame) : result DataFrame :=
  df_sales ← where_eq "Status" (Str "Success") df_sales;
  dates ← getcol df_sales "Date";
  let df_sales := assign "Date" (λ r, to_datetime dates (cellof r "Date")) df_sales in
  stamps ← getcol df_sales "Timestamp";
  let df_sales :=
    assign "Timestamp" (λ r, to_datetime stamps (cellof r "Timestamp")) df_sales in
  df_sales ← for_each_col to_numeric numeric_cols df_sales;
  df_sales ← assign_from "Year" "Date" dt_year df_sales;
  df_sales ← assign_from "Month" "Date" dt_month df_sales;
  df_sales ← assign_from "Month-Year" "Date" dt_period_month_str df_sales;
  df_sales ← assign_from "Week" "Date" dt_isocalendar_week df_sales;
  df_sales ← assign_from "DayOfWeek" "Date" dt_day_name df_sales;
  df_sales ← assign_from "Hour" "Timestamp" dt_hour df_sales;
  if has_column df_sales "Online / Offline" then
    assign_from "Sales Channel" "Online / Offline" id df_sales
  else
    assign_from "Sales Channel" "Area" channel_of_area df_sales.

(** Lines 145-147: [# Prepare name reference] *)
Definition name_ref_clean (df_name_ref : DataFrame) : result DataFrame :=
  df ← select ["Item"; "Real Name"; "Parent"; "Sub Category"] df_name_ref;
  df ← set_columns ["Item Name"; "Real Item Name"; "Parent Category"; "Sub Category"] df;
  drop_duplicates "Item Name" df.

(** Line 150: [# Prepare combo reference] *)
Definition combo_ref_clean (df_combo_ref : DataFrame) : result DataFrame :=
  select ["Item Name"; "Real Item Name"; "Category"; "Sub Category"] df_combo_ref.

(** Lines 153-155: [# Ensure Outlet column exists and has no nulls] *)
Definition ensure_outlet (df_sales : DataFrame) : result DataFrame :=
  let df_sales :=
    if has_column df_sales "Outlet" then df_sales
    else assign "Outlet" (λ _, Str "Unknown") df_sales in
  fillna "Outlet" (Str "Unknown") df_sales.

(** Lines 158-165 and 172-175: the left join on the item mapping and its
    three fills. *)
Definition merge_name_ref (df df_name_ref_clean : DataFrame) : result DataFrame :=
  df ← merge_left df df_name_ref_clean "Item Name";
  df ← fillna_from "Real Item Name" "Item Name" df;
  df ← fillna "Parent Category" (Str "Unknown") df;
  assign_from "Sub Category" "Sub Category" (λ x, as_str (fill (Str "Unknown") x)) df.

(** Lines 187-199: the body of the inner loop. *)
Definition new_row (df_name_ref_clean : DataFrame) (row component : Row) : Row :=
  let combo_qty := cellof row "Qty." in
  let new_row := <["Real Item Name" := cellof component "Real Item Name"]> row in
  let new_row := <["Qty." := mul_int combo_qty 1]> new_row in
  let matching_name :=
    filter (λ n, py_eq (cellof n "Real Item Name") (cellof component "Real Item Name"))
           (rows df_name_ref_clean) in
  match matching_name with
  | first :: _ =>
      let new_row := <["Parent Category" := cellof first "Parent Category"]> new_row in
      <["Sub Category" := cellof first "Sub Category"]> new_row
  | [] =>
      let new_row := <["Parent Category" := cellof component "Category"]> new_row in
      <["Sub Category" :=
          if notna (cellof component "Sub Category")
          then cellof component "Sub Category"
          else cellof component "Real Item Name"]> new_row
  end.

(** Line 184: [df_combo_ref_clean[df_combo_ref_clean['Item Name'] == combo_name]] *)
Definition components (df_combo_ref_clean : DataFrame) (row : Row) : list Row :=
  let combo_name := cellof row "Item Name" in
  filter (λ c, py_eq (cellof c "Item Name") combo_name) (rows df_combo_ref_clean).

(** Lines 179-201: the two loops. *)
Definition combo_exploded_list (df_name_ref_clean df_combo_ref_clean df_combo : DataFrame)
  : list Row :=
  flat_map (λ row, new_row df_name_ref_clean row <$> components df_combo_ref_clean row)
           (rows df_combo).

(** Lines 118-212. *)
Definition prepare_views (df_sales df_name_ref df_combo_ref : DataFrame)
  : result (DataFrame * DataFrame) :=
  df_sales ← clean_sales df_sales;
  df_name_ref_clean ← name_ref_clean df_name_ref;
  df_combo_ref_clean ← combo_ref_clean df_combo_ref;
  df_sales ← ensure_outlet df_sales;
  df_revenue_analysis ← merge_name_ref df_sales df_name_ref_clean;
  combo_names ← getcol df_combo_ref_clean "Item Name";
  let combo_items := unique combo_names in
  df_non_combo ← where_not_isin "Item Name" combo_items df_sales;
  df_non_combo_merged ← merge_name_ref df_non_combo df_name_ref_clean;
  df_combo ← where_isin "Item Name" combo_items df_sales;
  let exploded := combo_exploded_list df_name_ref_clean df_combo_ref_clean df_combo in
  let df_quantity_analysis :=
    match exploded with
    | [] => df_non_combo_merged
    | _ :: _ =>
        let df_combo_exploded :=
          {| columns := series_labels (columns df_combo)
               ["Real Item Name"; "Qty."; "Parent Category"; "Sub Category"];
             rows := exploded |} in
        pd_concat df_non_combo_merged df_combo_exploded
    end in
  df_quantity_analysis ←
    assign_from "Sub Category" "Sub Category" (λ x, as_str (fill (Str "Unknown") x))
      df_quantity_analysis;
  Ok (df_revenue_analysis, df_quantity_analysis).

(** [load_data]: the Streamlit calls made, and the pair returned
    ([None] stands for [(None, None)]). *)
Definition load_data (src : source) (use_google_sheets : bool)
  : list st_call * option (DataFrame * DataFrame) :=
  let '(calls, got) := load_sources src use_google_sheets in
  match '(df_sales, df_name_ref, df_combo_ref) ← got;
        prepare_views df_sales df_name_ref df_combo_ref with
  | Ok views => (calls, Some views)
  | Raise e => (calls ++ [st_error_loading_data e], None)
  end.

(** The cleaned transaction set both views are built from: [df_sales] as it
    stands at line 156. *)
Definition cleaned (df_sales : DataFrame) : result DataFrame :=
  df_sales ← clean_sales df_sales; ensure_outlet df_sales.

End with_lib.

End Dashboard.

(* ===================================================================== *)
(** * [sales_analysis.py]: Part 1, data ingestion and preparation *)
(* ===================================================================== *)

Module SalesAnalysis.
Import Pandas.

Definition numeric_cols : list string :=
  ["Price"; "Qty."; "Sub Total"; "Discount"; "Tax"; "Final Total"].

(** [lambda x: 'Delivery' if x == 'Swiggy' else 'In-Shop'] *)
Definition channel_of_area (x : cell) : cell :=
  if py_eq x (Str "Swiggy") then Str "Delivery" else Str "In-Shop".

Section with_lib.
Context `{PandasLib}.

(** Lines 58-85: [# Clean df_sales], the time features and the sales channel. *)
Definition clean_sales (df_sales : DataFrame) : result DataFrame :=
  df_sales ← where_eq "Status" (Str "Success") df_sales;
  dates ← getcol df_sales "Date";
  let df_sales := assign "Date" (λ r, to_datetime dates (cellof r "Date")) df_sales in
  stamps ← getcol df_sales "Timestamp";
  let df_sales :=
    assign "Timestamp" (λ r, to_datetime stamps (cellof r "Timestamp")) df_sales in
  df_sales ← for_each_col to_numeric numeric_cols df_sales;
  df_sales ← assign_from "Year" "Date" dt_year df_sales;
  df_sales ← assign_from "Month" "Date" dt_month df_sales;
  df_sales ← assign_from "Month-Year" "Date" dt_period_month_str df_sales;
  df_sales ← assign_from "Week" "Date" dt_isocalendar_week df_sales;
  df_sales ← assign_from "DayOfWeek" "Date" dt_day_name df_sales;
  df_sales ← assign_from "Hour" "Timestamp" dt_hour df_sales;
  assign_from "Sales Channel" "Area" channel_of_area df_sales.

(** Lines 100-102. *)
Definition name_ref_clean (df_name_ref : DataFrame) : result DataFrame :=
  df ← select ["Item"; "Real Name"; "Parent"; "Sub Category"] df_name_ref;
  df ← set_columns ["Item Name"; "Real Item Name"; "Parent Category"; "Sub Category"] df;
  drop_duplicates "Item Name" df.

(** Lines 105-114 and 134-143: the left join on the item mapping and its
    three fills. *)
Definition merge_name_ref (df df_name_ref_clean : DataFrame) : result DataFrame :=
  df ← merge_left df df_name_ref_clean "Item Name";
  df ← fillna_from "Real Item Name" "Item Name" df;
  df ← fillna "Parent Category" (Str "Unknown") df;
  fillna "Sub Category" (Str "Unknown") df.

(** Line 125. *)
Definition combo_ref_clean (df_combo_ref : DataFrame) : result DataFrame :=
  select ["Item Name"; "Real Item Name"] df_combo_ref.

(** Lines 163-165: the body of the inner loop. *)
Definition new_row (row component : Row) : Row :=
  let combo_qty := cellof row "Qty." in
  let new_row := <["Real Item Name" := cellof component "Real Item Name"]> row in
  <["Component Qty" := mul_int combo_qty 1]> new_row.

(** Line 159: [df_combo_ref_clean[df_combo_ref_clean['Item Name'] == combo_name]] *)
Definition components (df_combo_ref_clean : DataFrame) (row : Row) : list Row :=
  let combo_name := cellof row "Item Name" in
  filter (λ c, py_eq (cellof c "Item Name") combo_name) (rows df_combo_ref_clean).

(** Lines 152-166: the two loops. *)
Definition combo_exploded_list (df_combo_ref_clean df_combo : DataFrame) : list Row :=
  flat_map (λ row, new_row row <$> components df_combo_ref_clean row) (rows df_combo).

(** Lines 168-195. *)
Definition combo_exploded (df_name_ref_clean df_combo : DataFrame)
    (exploded : list Row) : result DataFrame :=
  match exploded with
  | [] => Ok {| columns := []; rows := [] |}
  | _ :: _ =>
      let df_combo_exploded :=
        {| columns := series_labels (columns df_combo) ["Real Item Name"; "Component Qty"];
           rows := exploded |} in
      df_combo_exploded ← assign_from "Qty." "Component Qty" id df_combo_exploded;
      let df_combo_exploded :=
        if has_column df_combo_exploded "Parent Category"
        then drop_columns ["Parent Category"; "Sub Category"] df_combo_exploded
        else df_combo_exploded in
      categories ← select ["Real Item Name"; "Parent Category"; "Sub Category"]
                     df_name_ref_clean;
      categories ← drop_duplicates "Real Item Name" categories;
      df_combo_exploded ← merge_left df_combo_exploded categories "Real Item Name";
      df_combo_exploded ← fillna "Parent Category" (Str "Unknown") df_combo_exploded;
      df_combo_exploded ← fillna "Sub Category" (Str "Unknown") df_combo_exploded;
      Ok (drop_columns ["Component Qty"] df_combo_exploded)
  end.

(** [df.empty] *)
Definition empty (df : DataFrame) : bool :=
  match columns df, rows df with
  | _ :: _, _ :: _ => false
  | _, _ => true
  end.

(** Lines 58-201: the two frames the rest of the script analyses. *)
Definition prepare_data (df_sales df_name_ref df_combo_ref : DataFrame)
  : result (DataFrame * DataFrame) :=
  df_sales ← clean_sales df_sales;
  df_name_ref_clean ← name_ref_clean df_name_ref;
  df_revenue_analysis ← merge_name_ref df_sales df_name_ref_clean;
  df_combo_ref_clean ← combo_ref_clean df_combo_ref;
  combo_names ← getcol df_combo_ref_clean "Item Name";
  let combo_items := unique combo_names in
  df_non_combo ← where_not_isin "Item Name" combo_items df_sales;
  df_non_combo_merged ← merge_name_ref df_non_combo df_name_ref_clean;
  df_combo ← where_isin "Item Name" combo_items df_sales;
  df_combo_exploded ←
    combo_exploded df_name_ref_clean df_combo
      (combo_exploded_list df_combo_ref_clean df_combo);
  let df_quantity_analysis :=
    if negb (empty df_combo_exploded)
    then pd_concat df_non_combo_merged df_combo_exploded
    else df_non_combo_merged in
  Ok (df_revenue_analysis, df_quantity_analysis).

End with_lib.

End SalesAnalysis.

(* ===================================================================== *)
(** * The two programs side by side, and the vocabulary of the properties *)
(* ===================================================================== *)

Import Pandas.

Inductive program := dashboard_py | sales_analysis_py.

Section vocabulary.
Context `{PandasLib}.

(** The reconciliation each program performs on the three sheets: the pair
    (Revenue View, Quantity View). *)
Definition reconcile (p : program) (df_sales df_name_ref df_combo_ref : DataFrame)
  : result (DataFrame * DataFrame) :=
  match p with
  | dashboard_py => Dashboard.prepare_views df_sales df_name_ref df_combo_ref
  | sales_analysis_py => SalesAnalysis.prepare_data df_sales df_name_ref df_combo_ref
  end.

(** The cleaned transaction set the views are built from. *)
Definition cleaned (p : program) (df_sales : DataFrame) : result DataFrame :=
  match p with
  | dashboard_py => Dashboard.cleaned df_sales
  | sales_analysis_py => SalesAnalysis.clean_sales df_sales
  end.

(** The item mapping: the item reference, renamed and deduplicated. *)
Definition item_mapping (p : program) (df_name_ref : DataFrame) : result DataFrame :=
  match p with
  | dashboard_py => Dashboard.name_ref_clean df_name_ref
  | sales_analysis_py => SalesAnalysis.name_ref_clean df_name_ref
  end.

End vocabulary.

(** The values of a column, top to bottom. *)
Definition values (df : DataFrame) (c : string) : list cell :=
  (λ r, cellof r c) <$> rows df.

(** [v] has the cells of [t] in the columns [cols] / outside the columns [cols]. *)
Definition same_on (cols : list string) (t v : Row) : Prop :=
  ∀ col, col ∈ cols → cellof v col = cellof t col.

Definition same_outside (cols : list string) (t v : Row) : Prop :=
  ∀ col, col ∉ cols → cellof v col = cellof t col.

(** The transaction [t] is a combo sale: its item name is one of the names of
    the combo reference. *)
Definition is_combo (df_combo_ref : DataFrame) (t : Row) : bool :=
  isin (values df_combo_ref "Item Name") (cellof t "Item Name").

(** The component rows the combo reference has for the item of [t]. *)
Definition component_rows (df_combo_ref : DataFrame) (t : Row) : list Row :=
  filter (λ c, py_eq (cellof c "Item Name") (cellof t "Item Name")) (rows df_combo_ref).

(** The item of [t] is not a key of the item reference. *)
Definition unmapped (df_name_ref : DataFrame) (t : Row) : Prop :=
  ∀ m, m ∈ rows df_name_ref → same_key (cellof t "Item Name") (cellof m "Item") = false.

(** The first row of a frame with the key [k] in the column [on]. *)
Definition lookup_key (on : string) (k : cell) (rs : list Row) : option Row :=
  head (filter (λ r, same_key k (cellof r on)) rs).

(** The keys of a list are pairwise different. *)
Fixpoint uniq_keys (ks : list cell) : Prop :=
  match ks with
  | [] => True
  | k :: ks => Forall (λ k', same_key k k' = false) ks ∧ uniq_keys ks
  end.

(** The suffixes of a join cannot produce the names of these columns again. *)
Definition suffix_free (rcols : list string) : Prop :=
  ∀ c d, c ∈ rcols → d ∈ rcols → d +:+ "_x" ≠ c ∧ d +:+ "_y" ≠ c.

(** The columns the cleaner writes. *)
Definition cleaner_columns (p : program) : list string :=
  ["Date"; "Timestamp"; "Price"; "Qty."; "Sub Total"; "Discount"; "Tax"; "Final Total";
   "Year"; "Month"; "Month-Year"; "Week"; "DayOfWeek"; "Hour"; "Sales Channel"]
  ++ match p with dashboard_py => ["Outlet"] | sales_analysis_py => [] end.

(** The columns the join on the item mapping adds. *)
Definition name_columns : list string :=
  ["Real Item Name"; "Parent Category"; "Sub Category"].

(** The columns in which an exploded row may differ from its transaction;
    the script also uses a scratch column. *)
Definition exploded_columns (p : program) : list string :=
  ["Real Item Name"; "Qty."; "Parent Category"; "Sub Category"]
  ++ match p with dashboard_py => [] | sales_analysis_py => ["Component Qty"] end.

Section relations.
Context `{PandasLib}.

(** The last conversion of the sub-category: the dashboard turns it into a
    string, the script leaves it. *)
Definition sub_str (p : program) (x : cell) : cell :=
  match p with
  | dashboard_py => as_str x
  | sales_analysis_py => x
  end.

(** [v] is the transaction [t] joined to the item mapping: the three name
    columns come from the row of the mapping with the item name of [t], with
    the fallbacks of the fills, and nothing else differs. *)
Definition kept_row (p : program) (mapping : DataFrame) (t v : Row) : Prop :=
  let m := lookup_key "Item Name" (cellof t "Item Name") (rows mapping) in
  let field c := from_option (λ r, cellof r c) NaN m in
  same_outside name_columns t v
  ∧ cellof v "Real Item Name" = fill (cellof t "Item Name") (field "Real Item Name")
  ∧ cellof v "Parent Category" = fill (Str "Unknown") (field "Parent Category")
  ∧ cellof v "Sub Category" = sub_str p (fill (Str "Unknown") (field "Sub Category")).

(** The parent category and the sub-category each program gives to the
    exploded row of the component [comp]. *)
Definition component_categories (p : program) (mapping : DataFrame) (comp : Row)
  : cell * cell :=
  match p with
  | dashboard_py =>
      match filter (λ m, py_eq (cellof m "Real Item Name") (cellof comp "Real Item Name"))
                   (rows mapping) with
      | m :: _ =>
          (cellof m "Parent Category",
           as_str (fill (Str "Unknown") (cellof m "Sub Category")))
      | [] =>
          (cellof comp "Category",
           as_str (fill (Str "Unknown")
                     (if notna (cellof comp "Sub Category")
                      then cellof comp "Sub Category"
                      else cellof comp "Real Item Name")))
      end
  | sales_analysis_py =>
      let m := lookup_key "Real Item Name" (cellof comp "Real Item Name") (rows mapping) in
      (fill (Str "Unknown") (from_option (λ r, cellof r "Parent Category") NaN m),
       fill (Str "Unknown") (from_option (λ r, cellof r "Sub Category") NaN m))
  end.

(** [out] is the row emitted for the component [comp] of the combo
    transaction [t]. *)
Definition exploded_row (p : program) (mapping : DataFrame) (t comp out : Row) : Prop :=
  same_outside (exploded_columns p) t out
  ∧ cellof out "Real Item Name" = cellof comp "Real Item Name"
  ∧ cellof out "Qty." = mul_int (cellof t "Qty.") 1
  ∧ (cellof out "Parent Category", cellof out "Sub Category")
    = component_categories p mapping comp.

End relations.

(** The shape of a Quantity View [qty] over the cleaned transactions [cl]:
    first one row per transaction that is not a combo, related to it by
    [kept]; then, for each combo transaction in turn, one row per component
    row of the combo reference, related to both by [emitted]. *)
Definition quantity_view_of (df_combo_ref cl qty : DataFrame)
    (kept : Row → Row → Prop) (emitted : Row → Row → Row → Prop) : Prop :=
  ∃ (plain : list Row) (exploded : list (list Row)),
    rows qty = plain ++ concat exploded
    ∧ Forall2 kept (filter (λ t, negb (is_combo df_combo_ref t)) (rows cl)) plain
    ∧ Forall2 (λ t outs, Forall2 (emitted t) (component_rows df_combo_ref t) outs)
        (filter (λ t, is_combo df_combo_ref t) (rows cl)) exploded.


Section resolution.
Context `{PandasLib}.

(** The resolution order as the specification words it: the item mapping by
    canonical name first; else the hint of the combo reference; the
    sub-category falls back to the canonical name, and to "Unknown" when that
    is missing too. *)
Definition spec_category_resolution (mapping : DataFrame) (comp out : Row) : Prop :=
  match filter (λ m, py_eq (cellof m "Real Item Name") (cellof comp "Real Item Name"))
               (rows mapping) with
  | m :: _ =>
      cellof out "Parent Category" = cellof m "Parent Category"
      ∧ cellof out "Sub Category" = cellof m "Sub Category"
  | [] =>
      cellof out "Parent Category" = cellof comp "Category"
      ∧ cellof out "Sub Category"
        = if notna (cellof comp "Sub Category") then cellof comp "Sub Category"
          else if notna (cellof comp "Real Item Name") then cellof comp "Real Item Name"
          else Str "Unknown"
  end.

(** What the dashboard does: as worded, with the sub-category made a string
    at the end (a missing one becomes "Unknown"), and the parent category of
    the hint taken as it is, missing or not. *)
Definition dashboard_category_resolution (mapping : DataFrame) (comp out : Row) : Prop :=
  match filter (λ m, py_eq (cellof m "Real Item Name") (cellof comp "Real Item Name"))
               (rows mapping) with
  | m :: _ =>
      cellof out "Parent Category" = cellof m "Parent Category"
      ∧ cellof out "Sub Category" = as_str (fill (Str "Unknown") (cellof m "Sub Category"))
  | [] =>
      cellof out "Parent Category" = cellof comp "Category"
      ∧ cellof out "Sub Category"
        = if notna (cellof comp "Sub Category") then as_str (cellof comp "Sub Category")
          else if notna (cellof comp "Real Item Name")
               then as_str (cellof comp "Real Item Name")
          else Str "Unknown"
  end.

(** What the script does: the item mapping by canonical name, and "Unknown"
    for whatever it does not give. *)
Definition script_category_resolution (mapping : DataFrame) (comp out : Row) : Prop :=
  match lookup_key "Real Item Name" (cellof comp "Real Item Name") (rows mapping) with
  | Some m =>
      cellof out "Parent Category" = fill (Str "Unknown") (cellof m "Parent Category")
      ∧ cellof out "Sub Category" = fill (Str "Unknown") (cellof m "Sub Category")
  | None =>
      cellof out "Parent Category" = Str "Unknown"
      ∧ cellof out "Sub Category" = Str "Unknown"
  end.

Definition category_resolution (p : program) : DataFrame → Row → Row → Prop :=
  match p with
  | dashboard_py => dashboard_category_resolution
  | sales_analysis_py => script_category_resolution
  end.

End resolution.


(* ===================================================================== *)
(** * Sample data *)
(* ===================================================================== *)

Module Sample.

(** A stand-in for the library: dates are kept as they are, only numbers are
    numeric, calendar fields are left missing. *)
Definition lib : PandasLib := {|
  to_datetime := λ _ x, x;
  to_number := λ x, match x with Num q => Some q | _ => None end;
  dt_year := λ _, NaN;
  dt_month := λ _, NaN;
  dt_period_month_str := λ _, NaN;
  dt_isocalendar_week := λ _, NaN;
  dt_day_name := λ _, NaN;
  dt_hour := λ _, NaN;
  str_of_num := λ _, "0"
|}.

Definition sales_columns : list string :=
  ["Status"; "Date"; "Timestamp"; "Item Name"; "Invoice No."; "Area";
   "Price"; "Qty."; "Sub Total"; "Discount"; "Tax"; "Final Total"].

Definition txn (status item : cell) (invoice qty total : Z) : Row :=
  list_to_map
    [("Status", status); ("Date", Str "2025-04-01");
     ("Timestamp", Str "2025-04-01 10:00"); ("Item Name", item);
     ("Invoice No.", Num (inject_Z invoice)); ("Area", Str "Swiggy");
     ("Price", Num (inject_Z total)); ("Qty.", Num (inject_Z qty));
     ("Sub Total", Num (inject_Z total)); ("Discount", Num 0); ("Tax", Num 0);
     ("Final Total", Num (inject_Z total))].

Definition name_ref_row (item real parent sub : cell) : Row :=
  list_to_map [("Item", item); ("Real Name", real); ("Parent", parent);
               ("Sub Category", sub)].

Definition combo_ref_row (item real category sub : cell) : Row :=
  list_to_map [("Item Name", item); ("Real Item Name", real); ("Category", category);
               ("Sub Category", sub)].

(** One combo sale, one failed sale, one mapped item, one unmapped item. *)
Definition sales : DataFrame :=
  {| columns := sales_columns;
     rows := [txn (Str "Success") (Str "Combo-A") 1 2 100;
              txn (Str "Failed") (Str "Tea") 2 1 10;
              txn (Str "Success") (Str "Tea") 3 1 10;
              txn (Str "Success") (Str "Mystery") 4 5 50] |}.

Definition name_ref : DataFrame :=
  {| columns := ["Item"; "Real Name"; "Parent"; "Sub Category"];
     rows := [name_ref_row (Str "Item-X") (Str "Item-X") (Str "Food") (Str "Snack");
              name_ref_row (Str "Tea") (Str "Masala Tea") (Str "Beverage") (Str "Hot");
              name_ref_row (Str "Tea") (Str "Other Tea") (Str "Other") (Str "Other")] |}.

(** Combo-A has two components; the second is not in the item reference and
    carries a category hint. *)
Definition combo_ref : DataFrame :=
  {| columns := ["Item Name"; "Real Item Name"; "Category"; "Sub Category"];
     rows := [combo_ref_row (Str "Combo-A") (Str "Item-X") (Str "Combo") NaN;
              combo_ref_row (Str "Combo-A") (Str "Item-Y") (Str "Snacks") (Str "Fried")] |}.

Definition excel (df_sales df_combo_ref : DataFrame) : Dashboard.source :=
  {| Dashboard.GSHEETS_AVAILABLE := false;
     Dashboard.has_gcp_service_account := false;
     Dashboard.load_from_google_sheets := Dashboard.LoadFailed "unavailable";
     Dashboard.load_from_excel := Dashboard.Sheets df_sales name_ref df_combo_ref |}.

(** A sheet in which every sale failed. *)
Definition failed_sales : DataFrame :=
  {| columns := sales_columns;
     rows := [txn (Str "Failed") (Str "Tea") 2 1 10] |}.



End Sample.

(** The views of a completed run. *)
Definition views_of (r : result (DataFrame * DataFrame)) : DataFrame * DataFrame :=
  match r with
  | Ok views => views
  | Raise _ => ({| columns := []; rows := [] |}, {| columns := []; rows := [] |})
  end.

Definition loaded_views (r : list Dashboard.st_call * option (DataFrame * DataFrame))
  : DataFrame * DataFrame :=
  match r.2 with
  | Some views => views
  | None => ({| columns := []; rows := [] |}, {| columns := []; rows := [] |})
  end.

Module SampleRuns.

(** The views each program builds from the sample sheets. *)
Definition dashboard_views : DataFrame * DataFrame :=
  views_of (@reconcile Sample.lib dashboard_py Sample.sales Sample.name_ref Sample.combo_ref).

Definition script_views : DataFrame * DataFrame :=
  views_of (@reconcile Sample.lib sales_analysis_py Sample.sales Sample.name_ref
              Sample.combo_ref).

(** [load_data] on the local file, with the sample sheets, with the sheet of
    failed sales, and with the blank item names. *)
Definition loaded : list Dashboard.st_call * option (DataFrame * DataFrame) :=
  @Dashboard.load_data Sample.lib (Sample.excel Sample.sales Sample.combo_ref) false.

Definition loaded_failed : list Dashboard.st_call * option (DataFrame * DataFrame) :=
  @Dashboard.load_data Sample.lib (Sample.excel Sample.failed_sales Sample.combo_ref) false.



End SampleRuns.

Module SampleFacts.

(** The item mapping of the sample item reference. *)
Definition mapping : DataFrame :=
  match item_mapping sales_analysis_py Sample.name_ref with
  | Ok m => m
  | Raise _ => {| columns := []; rows := [] |}
  end.

(** The component row of Combo-A that the item reference does not know. *)
Definition item_y : Row :=
  Sample.combo_ref_row (Str "Combo-A") (Str "Item-Y") (Str "Snacks") (Str "Fried").

(** The last row of the script's Quantity View. *)
Definition script_item_y_row : Row :=
  default ∅ (last (rows SampleRuns.script_views.2)).

(** The last row of the dashboard's Quantity View. *)
Definition dashboard_item_y_row : Row :=
  default ∅ (last (rows SampleRuns.dashboard_views.2)).



End SampleFacts.

(* ===================================================================== *)
(** * The cleaner cell by cell, and the sheets a run needs *)
(* ===================================================================== *)

(** The columns the cleaner reads from the sheet, in the order in which it
    first reads them. *)
Definition cleaner_reads (p : program) (df_sales : DataFrame) : list string :=
  ["Status"; "Date"; "Timestamp"; "Price"; "Qty."; "Sub Total"; "Discount"; "Tax";
   "Final Total";
   match p with
   | dashboard_py =>
       if has_column df_sales "Online / Offline" then "Online / Offline" else "Area"
   | sales_analysis_py => "Area"
   end].

(** The rows of the sheet whose status is "Success". *)
Definition successful (df_sales : DataFrame) : list Row :=
  filter (λ r, py_eq (cellof r "Status") (Str "Success")) (rows df_sales).

Section cleaner_vocabulary.
Context `{PandasLib}.

(** The cell the cleaner of [p] leaves in the column [col] of the row that
    was [r] in the sheet.  The dates and the timestamps are parsed with the
    column of the successful rows at hand. *)
Definition clean_cell (p : program) (df_sales : DataFrame) (r : Row) (col : string)
  : cell :=
  let date :=
    to_datetime ((λ r, cellof r "Date") <$> successful df_sales) (cellof r "Date") in
  let stamp :=
    to_datetime ((λ r, cellof r "Timestamp") <$> successful df_sales)
      (cellof r "Timestamp") in
  if bool_decide (col = "Date") then date
  else if bool_decide (col = "Timestamp") then stamp
  else if bool_decide (col ∈ SalesAnalysis.numeric_cols) then to_numeric (cellof r col)
  else if bool_decide (col = "Year") then dt_year date
  else if bool_decide (col = "Month") then dt_month date
  else if bool_decide (col = "Month-Year") then dt_period_month_str date
  else if bool_decide (col = "Week") then dt_isocalendar_week date
  else if bool_decide (col = "DayOfWeek") then dt_day_name date
  else if bool_decide (col = "Hour") then dt_hour stamp
  else if bool_decide (col = "Sales Channel") then
    match p with
    | dashboard_py =>
        if has_column df_sales "Online / Offline" then cellof r "Online / Offline"
        else Dashboard.channel_of_area (cellof r "Area")
    | sales_analysis_py => SalesAnalysis.channel_of_area (cellof r "Area")
    end
  else if bool_decide (col = "Outlet") then
    match p with
    | dashboard_py =>
        if has_column df_sales "Outlet" then fill (Str "Unknown") (cellof r "Outlet")
        else Str "Unknown"
    | sales_analysis_py => cellof r "Outlet"
    end
  else cellof r col.

End cleaner_vocabulary.

(** In the row [v] the columns [T] have been written with the cells [F]
    gives for the row [r], and the other columns are those of [r]. *)
Definition written (F : Row → string → cell) (T : list string) (r v : Row) : Prop :=
  ∀ col, cellof v col = if bool_decide (col ∈ T) then F r col else cellof r col.

(** The frame [df] of a run on the sheet [s] after the columns [T] have been
    assigned, in this order, to the rows [L]. *)
Definition stage (s : DataFrame) (F : Row → string → cell) (L : list Row)
    (T : list string) (df : DataFrame) : Prop :=
  columns df = series_labels (columns s) T ∧ Forall2 (written F T) L (rows df).

(** What a run that still has the columns [reads] to read from the sheet [s]
    comes to: it completes when the sheet has them all, and raises the
    [KeyError] of the first one it has not. *)
Definition outcome {A} (s : DataFrame) (reads : list string) (r : result A) : Prop :=
  match filter (λ c, c ∉ columns s) reads with
  | [] => ∃ a, r = Ok a
  | col :: _ => r = Raise (KeyError [col])
  end.

(** The columns read from the item reference and from the combo reference. *)
Definition reference_columns : list string :=
  ["Item"; "Real Name"; "Parent"; "Sub Category"].



Module Faulty.


(** The sample item reference without its two category columns. *)
Definition name_ref_without_categories : DataFrame :=
  drop_columns ["Parent"; "Sub Category"] Sample.name_ref.


End Faulty.

(* ===================================================================== *)
(** * Facts about the pandas fragment *)
(* ===================================================================== *)

Section pandas_facts.

(** ** The [result] monad *)

Lemma bind_Ok {A B} (m : result A) (f : A → result B) (b : B) :
  m ≫= f = Ok b → ∃ a, m = Ok a ∧ f a = Ok b.
Proof. destruct m as [a|e]; simpl; [eauto | discriminate]. Qed.

Lemma bind_Raise {A B} (m : result A) (f : A → result B) (e : exn) :
  m = Raise e → m ≫= f = Raise e.
Proof. by intros ->. Qed.

(** ** Cells and keys *)

Lemma same_key_refl a : same_key a a = true.
Proof.
  destruct a as [|s|x]; simpl; [done | by apply bool_decide_eq_true | apply Qeq_bool_refl].
Qed.

Lemma same_key_sym a b : same_key a b = same_key b a.
Proof.
  destruct a as [|s|x], b as [|t|y]; simpl; try done.
  - apply bool_decide_ext; naive_solver.
  - apply Qeq_bool_comm.
Qed.

Lemma same_key_trans a b c :
  same_key a b = true → same_key b c = true → same_key a c = true.
Proof.
  destruct a as [|s|x], b as [|t|y], c as [|u|z]; simpl; try done.
  - rewrite !bool_decide_eq_true. congruence.
  - apply Qeq_bool_trans.
Qed.

Lemma py_eq_same_key a b : py_eq a b = true → same_key a b = true.
Proof. by destruct a, b. Qed.

Lemma same_key_py_eq a b : a ≠ NaN → same_key a b = py_eq a b.
Proof. by destruct a, b. Qed.

Lemma py_eq_Str a s : py_eq a (Str s) = true ↔ a = Str s.
Proof.
  destruct a as [|t|x]; simpl; try (split; [discriminate | done]).
  rewrite bool_decide_eq_true. split; congruence.
Qed.

Lemma str_app_empty_r (s : string) : s +:+ EmptyString = s.
Proof.
  induction s as [|a s IH]; [done|].
  change (String a (s +:+ EmptyString) = String a s). by f_equal.
Qed.

Lemma mul_int_1 c : mul_int c 1 = c.
Proof.
  destruct c as [|s|[n d]]; simpl; [done | |].
  - change (Str (s +:+ EmptyString) = Str s). by rewrite str_app_empty_r.
  - unfold Qmult; simpl. by rewrite Z.mul_1_r, Pos.mul_1_r.
Qed.

Lemma fill_notna v x : isna x = false → fill v x = x.
Proof. unfold fill. by intros ->. Qed.

Lemma fill_Unknown_id : fill (Str "Unknown") (Str "Unknown") = Str "Unknown".
Proof. done. Qed.

(** ** [isin], [unique] and [drop_duplicates] *)

Lemma existsb_same_key_trans x y l :
  same_key x y = true → existsb (same_key y) l = true → existsb (same_key x) l = true.
Proof.
  intros Hxy. rewrite !existsb_exists. intros (z & Hz & Hyz).
  exists z. split; [done | by eapply same_key_trans].
Qed.

Lemma isin_unique_from seen l x :
  existsb (same_key x) (unique_from seen l) || existsb (same_key x) seen
  = existsb (same_key x) l || existsb (same_key x) seen.
Proof.
  revert seen. induction l as [|y l IH]; intros seen; simpl; [done|].
  destruct (existsb (same_key y) seen) eqn:Hy.
  - rewrite IH. destruct (same_key x y) eqn:Hxy; simpl; [|done].
    rewrite (existsb_same_key_trans x y seen) by done. by rewrite orb_true_r.
  - simpl. specialize (IH (y :: seen)). simpl in IH.
    destruct (same_key x y); simpl in *; [done|]. 
    destruct (existsb (same_key x) seen); simpl in *.
    + by rewrite !orb_true_r.
    + by rewrite !orb_false_r in *.
Qed.

Lemma isin_unique l x : isin (unique l) x = isin l x.
Proof.
  unfold isin, unique. pose proof (isin_unique_from [] l x) as Hu.
  simpl in Hu. by rewrite !orb_false_r in Hu.
Qed.

Lemma drop_dup_rows_elem key seen rs r :
  r ∈ drop_dup_rows key seen rs → r ∈ rs.
Proof.
  revert seen. induction rs as [|r' rs IH]; intros seen; simpl; [done|].
  destruct (existsb _ seen).
  - intros ?%IH. by right.
  - intros [->|?%IH]%elem_of_cons; [left | by right].
Qed.

Lemma drop_dup_rows_uniq key seen rs :
  uniq_keys (key <$> drop_dup_rows key seen rs)
  ∧ Forall (λ r, existsb (same_key (key r)) seen = false) (drop_dup_rows key seen rs).
Proof.
  revert seen. induction rs as [|r rs IH]; intros seen; simpl; [by split|].
  destruct (existsb (same_key (key r)) seen) eqn:Hr; [apply IH|].
  destruct (IH (key r :: seen)) as [IH1 IH2]. simpl. repeat split.
  - apply Forall_fmap. eapply Forall_impl; [exact IH2|]. simpl.
    intros r' [Hr' _]%orb_false_elim. by rewrite same_key_sym.
  - done.
  - constructor; [done|]. eapply Forall_impl; [exact IH2|]. simpl.
    by intros r' [_ Hr']%orb_false_elim.
Qed.

Lemma filter_none {A} (P : A → Prop) `{∀ x, Decision (P x)} (l : list A) :
  Forall (λ x, ¬ P x) l → filter P l = [].
Proof.
  induction 1 as [|x l Hx _ IH]; [done|]. by rewrite filter_cons_False.
Qed.

Lemma uniq_keys_filter (key : Row → cell) rs k :
  uniq_keys (key <$> rs) →
  length (filter (λ r, same_key k (key r)) rs) ≤ 1.
Proof.
  induction rs as [|r rs IH]; simpl; [lia|]. intros [Hr Hrs].
  rewrite filter_cons. destruct (decide _) as [Hk|Hk]; [|auto].
  assert (filter (λ r, same_key k (key r)) rs = []) as ->; [|simpl; lia].
  apply filter_none. rewrite Forall_fmap in Hr.
  eapply Forall_impl; [exact Hr|]. simpl. intros r' Hrr' Hkr'.
  apply Is_true_true in Hk, Hkr'.
  rewrite (same_key_trans (key r) k (key r')) in Hrr'; [done| |done].
  by rewrite same_key_sym.
Qed.


(** ** Rows *)

Lemma cellof_insert (r : Row) c v : cellof (<[c := v]> r) c = v.
Proof. unfold cellof. by rewrite lookup_insert_eq. Qed.

Lemma cellof_insert_ne (r : Row) c d v : c ≠ d → cellof (<[c := v]> r) d = cellof r d.
Proof. intros. unfold cellof. by rewrite lookup_insert_ne. Qed.

Lemma cellof_delete_ne (r : Row) c d : c ≠ d → cellof (delete c r) d = cellof r d.
Proof. intros. unfold cellof. by rewrite lookup_delete_ne. Qed.

Lemma cellof_drop (r : Row) cs d : d ∉ cs → cellof (foldr delete r cs) d = cellof r d.
Proof.
  induction cs as [|c cs IH]; simpl; [done|]. intros [? ?]%not_elem_of_cons.
  rewrite cellof_delete_ne by done. auto.
Qed.

Lemma has_column_true df c : has_column df c = true ↔ c ∈ columns df.
Proof. apply bool_decide_eq_true. Qed.

Lemma has_column_false df c : has_column df c = false ↔ c ∉ columns df.
Proof. apply bool_decide_eq_false. Qed.

(** ** What a successful step has done *)

Lemma getcol_Ok df c l : getcol df c = Ok l → c ∈ columns df ∧ l = values df c.
Proof.
  unfold getcol. destruct (has_column df c) eqn:Hc; [|discriminate].
  apply has_column_true in Hc. by intros [= <-].
Qed.

Lemma assign_from_Ok dst src g df out :
  assign_from dst src g df = Ok out →
  src ∈ columns df ∧ out = assign dst (λ r, g (cellof r src)) df.
Proof.
  unfold assign_from. destruct (has_column df src) eqn:Hc; [|discriminate].
  apply has_column_true in Hc. by intros [= <-].
Qed.

Lemma fillna_from_Ok c src df out :
  fillna_from c src df = Ok out →
  c ∈ columns df ∧ src ∈ columns df
  ∧ out = assign c (λ r, fill (cellof r src) (cellof r c)) df.
Proof.
  unfold fillna_from. destruct (has_column df c) eqn:Hc; [|discriminate].
  destruct (has_column df src) eqn:Hs; [|discriminate].
  apply has_column_true in Hc, Hs. by intros [= <-].
Qed.

Lemma where_eq_Ok c v df out :
  where_eq c v df = Ok out →
  c ∈ columns df ∧ columns out = columns df
  ∧ rows out = filter (λ r, py_eq (cellof r c) v) (rows df).
Proof.
  unfold where_eq. destruct (has_column df c) eqn:Hc; [|discriminate].
  apply has_column_true in Hc. by intros [= <-].
Qed.

Lemma where_isin_Ok c vs df out :
  where_isin c vs df = Ok out →
  c ∈ columns df ∧ columns out = columns df
  ∧ rows out = filter (λ r, isin vs (cellof r c)) (rows df).
Proof.
  unfold where_isin. destruct (has_column df c) eqn:Hc; [|discriminate].
  apply has_column_true in Hc. by intros [= <-].
Qed.

Lemma where_not_isin_Ok c vs df out :
  where_not_isin c vs df = Ok out →
  c ∈ columns df ∧ columns out = columns df
  ∧ rows out = filter (λ r, negb (isin vs (cellof r c))) (rows df).
Proof.
  unfold where_not_isin. destruct (has_column df c) eqn:Hc; [|discriminate].
  apply has_column_true in Hc. by intros [= <-].
Qed.

Lemma select_Ok cs df out :
  select cs df = Ok out →
  columns out = cs
  ∧ rows out = (λ r, list_to_map ((λ c, (c, cellof r c)) <$> cs)) <$> rows df.
Proof. unfold select. destruct (filter _ cs); [|discriminate]. by intros [= <-]. Qed.

Lemma set_columns_Ok new df out :
  set_columns new df = Ok out →
  columns out = new
  ∧ rows out = (λ r, list_to_map (zip new (cellof r <$> columns df))) <$> rows df.
Proof. unfold set_columns. case_bool_decide; [|discriminate]. by intros [= <-]. Qed.

Lemma drop_duplicates_Ok c df out :
  drop_duplicates c df = Ok out →
  columns out = columns df
  ∧ rows out = drop_dup_rows (λ r, cellof r c) [] (rows df).
Proof.
  unfold drop_duplicates. destruct (has_column df c); [|discriminate]. by intros [= <-].
Qed.

Lemma columns_assign_present c f df :
  c ∈ columns df → columns (assign c f df) = columns df.
Proof. intros Hc%has_column_true. unfold assign; simpl. by rewrite Hc. Qed.

Lemma columns_assign_mono c d f df :
  d ∈ columns df → d ∈ columns (assign c f df).
Proof.
  intros Hd. unfold assign; simpl. destruct (has_column df c); [done|].
  apply elem_of_app. by left.
Qed.

Lemma rows_assign c f df : rows (assign c f df) = (λ r, <[c := f r]> r) <$> rows df.
Proof. done. Qed.

Lemma columns_drop_columns cs df :
  columns (drop_columns cs df) = filter (λ c, c ∉ cs) (columns df).
Proof. done. Qed.

Lemma rows_drop_columns cs df :
  rows (drop_columns cs df) = (λ r, foldr delete r cs) <$> rows df.
Proof. done. Qed.

Lemma drop_duplicates_uniq c df out :
  drop_duplicates c df = Ok out → uniq_keys (values out c).
Proof.
  intros [_ Hrows]%drop_duplicates_Ok. unfold values. rewrite Hrows.
  apply (drop_dup_rows_uniq (λ r, cellof r c)).
Qed.

(** ** The left join *)

Lemma merge_rows_uniq on ov rc ls rs :
  uniq_keys ((λ r, cellof r on) <$> rs) →
  merge_rows on ov rc ls rs
  = (λ l, merge_row ov rc l (lookup_key on (cellof l on) rs)) <$> ls.
Proof.
  intros Hu. unfold merge_rows, lookup_key.
  induction ls as [|l ls IH]; [done|].
  rewrite fmap_cons, <-IH. cbn [flat_map].
  pose proof (uniq_keys_filter (λ r, cellof r on) rs (cellof l on) Hu) as Hlen.
  destruct (filter _ rs) as [|m [|m' ms]]; simpl in *; [done | done | lia].
Qed.

Lemma suffixed_nil sfx c : suffixed [] sfx c = c.
Proof. unfold suffixed. by rewrite bool_decide_eq_false_2 by apply not_elem_of_nil. Qed.

Lemma cellof_merge_row (rc : list string) (l : Row) (ro : option Row) c :
  cellof (merge_row [] rc l ro) c
  = if decide (c ∈ rc) then from_option (λ r, cellof r c) NaN ro else cellof l c.
Proof.
  unfold merge_row. simpl. induction rc as [|d rc IH].
  - simpl. destruct (decide (c ∈ [])) as [Hin|]; [by apply elem_of_nil in Hin | done].
  - simpl. rewrite suffixed_nil. destruct (decide (d = c)) as [->|Hne].
    + rewrite cellof_insert. destruct (decide (c ∈ c :: rc)) as [|Hn]; [done|].
      exfalso. apply Hn. left.
    + rewrite cellof_insert_ne by done. rewrite IH.
      destruct (decide (c ∈ rc)) as [Hin|Hin], (decide (c ∈ d :: rc)) as [Hin'|Hin'];
        try done.
      * exfalso. apply Hin'. by right.
      * apply elem_of_cons in Hin' as [?|?]; [congruence | done].
Qed.


Lemma merge_no_overlap (lcols rcols : list string) :
  suffix_free rcols →
  (∀ c, c ∈ rcols →
     c ∈ (suffixed (filter (λ c, c ∈ lcols) rcols) "_x" <$> lcols)
          ++ (suffixed (filter (λ c, c ∈ lcols) rcols) "_y" <$> rcols)) →
  filter (λ c, c ∈ lcols) rcols = [].
Proof.
  intros Hfree Hall. set (ov := filter (λ c, c ∈ lcols) rcols) in *.
  apply filter_none, Forall_forall. intros c Hc Hl.
  assert (c ∈ ov) as Hov by (by apply list_elem_of_filter).
  assert (∀ d, d ∈ ov → d ∈ rcols) as Hsub.
  { intros d Hd. by apply list_elem_of_filter in Hd as [_ ?]. }
  pose proof (Hall c Hc) as Hm. apply elem_of_app in Hm.
  destruct Hm as [(d & Hd & Hdl)%list_elem_of_fmap|(d & Hd & Hdr)%list_elem_of_fmap];
    unfold suffixed in Hd; case_bool_decide as Hdov; subst.
  - apply Hsub in Hdov. by destruct (Hfree (d +:+ "_x") d Hc Hdov).
  - done.
  - apply Hsub in Hdov. by destruct (Hfree (d +:+ "_y") d Hc Hdov).
  - done.
Qed.

Lemma merge_left_Ok L R on out :
  merge_left L R on = Ok out →
  uniq_keys (values R on) →
  suffix_free (filter (λ c, c ≠ on) (columns R)) →
  (∀ c, c ∈ filter (λ c, c ≠ on) (columns R) → c ∈ columns out) →
  (∀ c, c ∈ filter (λ c, c ≠ on) (columns R) → c ∉ columns L)
  ∧ columns out = columns L ++ filter (λ c, c ≠ on) (columns R)
  ∧ rows out
    = (λ l, merge_row [] (filter (λ c, c ≠ on) (columns R)) l
              (lookup_key on (cellof l on) (rows R))) <$> rows L.
Proof.
  unfold merge_left. destruct (has_column L on && has_column R on); [|discriminate].
  set (rcols := filter (λ c, c ≠ on) (columns R)).
  intros [= <-] Hu Hfree Hall. simpl in Hall.
  pose proof (merge_no_overlap (columns L) rcols Hfree Hall) as Hov.
  simpl. rewrite Hov. split_and!.
  - intros c Hc Hl. assert (c ∈ filter (λ c, c ∈ columns L) rcols) as Hin
      by (by apply list_elem_of_filter).
    rewrite Hov in Hin. by apply elem_of_nil in Hin.
  - f_equal.
    + rewrite <-(list_fmap_id (columns L)) at 2. apply list_fmap_ext.
      intros _ c _. apply suffixed_nil.
    + rewrite <-(list_fmap_id rcols) at 2. apply list_fmap_ext.
      intros _ c _. apply suffixed_nil.
  - by apply merge_rows_uniq.
Qed.


(** ** Selections *)

Lemma cellof_restrict (r : Row) (cs : list string) c :
  c ∈ cs → cellof (list_to_map ((λ c, (c, cellof r c)) <$> cs)) c = cellof r c.
Proof.
  induction cs as [|d cs IH]; [by intros ?%elem_of_nil|]. intros Hc. simpl.
  destruct (decide (d = c)) as [->|Hne]; [by rewrite cellof_insert|].
  rewrite cellof_insert_ne by done. apply IH.
  apply elem_of_cons in Hc as [?|?]; [congruence | done].
Qed.

Lemma filter_fmap {A B} (f : A → B) (P : B → Prop) `{∀ x, Decision (P x)} (l : list A) :
  filter P (f <$> l) = f <$> filter (λ x, P (f x)) l.
Proof.
  induction l as [|x l IH]; [done|]. rewrite fmap_cons, !filter_cons.
  destruct (decide (P (f x))); by rewrite IH.
Qed.

Lemma filter_ext_in {A} (P Q : A → Prop) `{∀ x, Decision (P x)} `{∀ x, Decision (Q x)}
    (l : list A) :
  (∀ x, x ∈ l → P x ↔ Q x) → filter P l = filter Q l.
Proof.
  induction l as [|x l IH]; [done|]. intros HPQ. rewrite !filter_cons.
  rewrite IH by (intros y Hy; apply HPQ; by right).
  destruct (decide (P x)) as [HP|HP], (decide (Q x)) as [HQ|HQ]; try done.
  - destruct HQ. apply HPQ; [left | done].
  - destruct HP. apply HPQ; [left | done].
Qed.

Lemma lookup_key_fmap on k (f : Row → Row) rs :
  (∀ r, cellof (f r) on = cellof r on) →
  lookup_key on k (f <$> rs) = f <$> lookup_key on k rs.
Proof.
  intros Hf. unfold lookup_key. rewrite filter_fmap.
  rewrite (filter_ext_in _ (λ r, same_key k (cellof r on))) by (intros r _; by rewrite Hf).
  by destruct (filter _ rs).
Qed.

Lemma lookup_key_drop_dup on k seen rs :
  existsb (same_key k) seen = false →
  lookup_key on k (drop_dup_rows (λ r, cellof r on) seen rs) = lookup_key on k rs.
Proof.
  unfold lookup_key. revert seen. induction rs as [|r rs IH]; intros seen Hk; [done|].
  simpl. destruct (existsb (same_key (cellof r on)) seen) eqn:Hr.
  - rewrite IH by done. rewrite filter_cons_False; [done|].
    intros Hkr%Is_true_true.
    by rewrite (existsb_same_key_trans k (cellof r on) seen) in Hk.
  - rewrite !filter_cons. destruct (decide _) as [|Hkr]; [done|].
    apply IH. simpl. apply orb_false_intro; [|done].
    destruct (same_key k (cellof r on)); [by destruct Hkr | done].
Qed.


(** ** Assignments leave the other columns alone *)

Lemma assign_frame (T : list string) (L : list Row) dst f df :
  dst ∈ T →
  Forall2 (same_outside T) L (rows df) →
  Forall2 (same_outside T) L (rows (assign dst f df)).
Proof.
  intros Hdst HL. rewrite rows_assign. apply Forall2_fmap_r.
  eapply Forall2_impl; [exact HL|]. intros t v Htv col Hcol.
  rewrite cellof_insert_ne; [by apply Htv|]. by intros ->.
Qed.

Lemma assign_from_frame (T : list string) (L : list Row) dst src g df out :
  assign_from dst src g df = Ok out →
  dst ∈ T →
  Forall2 (same_outside T) L (rows df) →
  Forall2 (same_outside T) L (rows out).
Proof. intros [_ ->]%assign_from_Ok. apply assign_frame. Qed.

Lemma for_each_col_frame (T : list string) (L : list Row) g cols df out :
  for_each_col g cols df = Ok out →
  Forall (λ c, c ∈ T) cols →
  Forall2 (same_outside T) L (rows df) →
  Forall2 (same_outside T) L (rows out).
Proof.
  revert df. induction cols as [|c cols IH]; intros df; simpl.
  - by intros [= <-].
  - intros (d & Hd & Hout)%bind_Ok [Hc Hcols]%Forall_cons HL.
    eapply IH; [exact Hout | done |]. by eapply assign_from_frame.
Qed.

Lemma same_outside_refl (T : list string) (L : list Row) :
  Forall2 (same_outside T) L L.
Proof. apply Forall_Forall2_diag, Forall_forall. by intros t _ col _. Qed.


Lemma fmap_flat_map {A B C} (g : B → C) (f : A → list B) (l : list A) :
  g <$> flat_map f l = concat ((λ x, g <$> f x) <$> l).
Proof.
  induction l as [|x l IH]; [done|]. cbn [flat_map]. rewrite fmap_app, IH. done.
Qed.


Lemma elem_of_flat_map {A B} (f : A → list B) (l : list A) (y : A) (x : B) :
  y ∈ l → x ∈ f y → x ∈ flat_map f l.
Proof.
  induction l as [|z l IH]; [by intros ?%elem_of_nil|]. cbn [flat_map].
  intros [->|Hy]%elem_of_cons Hx; apply elem_of_app; [by left | right; auto].
Qed.

End pandas_facts.

Ltac inv_bind H :=
  let a := fresh "df" in
  let Ha := fresh "H" a in
  apply bind_Ok in H as (a & Ha & H).

Ltac cellof_simpl :=
  repeat (rewrite cellof_insert || rewrite cellof_insert_ne by done).

Ltac inv_steps :=
  repeat match goal with
  | H : (_ ≫= _) = Ok _ |- _ =>
      let a := fresh "d" in let Ha := fresh "Hd" in apply bind_Ok in H as (a & Ha & H)
  | H : assign_from _ _ _ _ = Ok _ |- _ =>
      let Hc := fresh "Hc" in apply assign_from_Ok in H as (Hc & ->)
  | H : fillna _ _ _ = Ok _ |- _ =>
      let Hc := fresh "Hc" in apply assign_from_Ok in H as (Hc & ->)
  | H : getcol _ _ = Ok _ |- _ =>
      let Hc := fresh "Hc" in apply getcol_Ok in H as (Hc & ->)
  end.

(** One step of a chain of assignments: the frame fact [HF] about the frame
    at hand is carried to the next frame. *)
Ltac frame_steps H HF :=
  repeat (let a := fresh "d" in let Ha := fresh "Hd" in
          apply bind_Ok in H as (a & Ha & H);
          first [ eapply assign_from_frame in HF; [|exact Ha|compute_done]
                | eapply for_each_col_frame in HF; [|exact Ha|compute_done] ];
          clear Ha).

Ltac notin_tac :=
  let Hin := fresh in
  intros Hin; repeat (apply elem_of_cons in Hin as [Hin|Hin]; [done|]);
  by apply elem_of_nil in Hin.

Ltac split_notin H :=
  repeat (let Hne := fresh "Hne" in apply not_elem_of_cons in H as [Hne H]).

Section stage_facts.
Context `{PandasLib}.

Lemma name_ref_clean_spec n nrc :
  Dashboard.name_ref_clean n = Ok nrc →
  columns nrc = ["Item Name"; "Real Item Name"; "Parent Category"; "Sub Category"]
  ∧ uniq_keys (values nrc "Item Name")
  ∧ ∀ m', m' ∈ rows nrc → ∃ m, m ∈ rows n
      ∧ cellof m' "Item Name" = cellof m "Item"
      ∧ cellof m' "Real Item Name" = cellof m "Real Name"
      ∧ cellof m' "Parent Category" = cellof m "Parent"
      ∧ cellof m' "Sub Category" = cellof m "Sub Category".
Proof.
  unfold Dashboard.name_ref_clean. intros Hn.
  inv_bind Hn. inv_bind Hn.
  apply select_Ok in Hdf as [Hc0 Hr0]. apply set_columns_Ok in Hdf0 as [Hc1 Hr1].
  pose proof (drop_duplicates_uniq _ _ _ Hn) as Hu.
  apply drop_duplicates_Ok in Hn as [Hc2 Hr2].
  split_and!; [congruence | done |].
  intros m' Hm'. rewrite Hr2 in Hm'. apply drop_dup_rows_elem in Hm'.
  rewrite Hr1, Hc0 in Hm'. apply list_elem_of_fmap in Hm' as (r & -> & Hr).
  rewrite Hr0 in Hr. apply list_elem_of_fmap in Hr as (m & -> & Hm).
  exists m. split; [done|]. simpl.
  split_and!; by cellof_simpl.
Qed.


Lemma suffix_free_name_columns : suffix_free name_columns.
Proof.
  intros c d Hc Hd. unfold name_columns in *.
  repeat (apply elem_of_cons in Hc as [->|Hc]); [..|by apply elem_of_nil in Hc];
    repeat (apply elem_of_cons in Hd as [->|Hd]); try (by apply elem_of_nil in Hd);
    by split.
Qed.

(** The join on the item mapping and the fills, row by row. *)
Lemma merge_name_ref_rows (p : program) df mapping out :
  columns mapping = ["Item Name"; "Real Item Name"; "Parent Category"; "Sub Category"] →
  uniq_keys (values mapping "Item Name") →
  match p with
  | dashboard_py => Dashboard.merge_name_ref df mapping
  | sales_analysis_py => SalesAnalysis.merge_name_ref df mapping
  end = Ok out →
  (∀ c, c ∈ name_columns → c ∉ columns df)
  ∧ columns out = columns df ++ name_columns
  ∧ Forall2 (kept_row p mapping) (rows df) (rows out).
Proof.
  intros Hcols Hu Hout.
  assert (filter (λ c, c ≠ "Item Name") (columns mapping) = name_columns) as Hrc
    by (by rewrite Hcols).
  assert (∃ merged,
    merge_left df mapping "Item Name" = Ok merged
    ∧ (∀ c, c ∈ name_columns → c ∈ columns merged)
    ∧ columns out = columns merged
    ∧ rows out =
        (λ r, <["Sub Category" := sub_str p (fill (Str "Unknown") (cellof r "Sub Category"))]> r)
        <$> ((λ r, <["Parent Category" := fill (Str "Unknown") (cellof r "Parent Category")]> r)
        <$> ((λ r, <["Real Item Name" :=
                       fill (cellof r "Item Name") (cellof r "Real Item Name")]> r)
        <$> rows merged)))
    as (merged & Hm & Hin & Hco & Hro).
  { destruct p; [unfold Dashboard.merge_name_ref in Hout
                | unfold SalesAnalysis.merge_name_ref, fillna in Hout];
      apply bind_Ok in Hout as (merged & Hm & Hout);
      apply bind_Ok in Hout as (d1 & Hd1 & Hout);
      apply bind_Ok in Hout as (d2 & Hd2 & Hout);
      apply fillna_from_Ok in Hd1 as (Hc1 & Hc1' & ->);
      apply assign_from_Ok in Hd2 as (Hc2 & ->);
      apply assign_from_Ok in Hout as (Hc3 & ->);
      rewrite columns_assign_present in Hc2 by done;
      rewrite (columns_assign_present "Parent Category") in Hc3
        by (by rewrite columns_assign_present);
      rewrite columns_assign_present in Hc3 by done;
      exists merged; (split_and!; [done | | | done]).
    all: try (intros c Hc; unfold name_columns in Hc;
          repeat (apply elem_of_cons in Hc as [->|Hc]); try done;
          by apply elem_of_nil in Hc).
    all: by rewrite !columns_assign_present
                by (repeat apply columns_assign_mono; done). }
  apply merge_left_Ok in Hm as (Hfresh & Hcm & Hrm); rewrite ?Hrc;
    [|done|apply suffix_free_name_columns|done].
  rewrite Hrc in *. split_and!; [done | congruence |].
  rewrite Hro, Hrm. do 4 apply Forall2_fmap_r. apply Forall_Forall2_diag.
  apply Forall_forall. intros t _. unfold kept_row.
  split_and!.
  - intros col Hcol. unfold name_columns in Hcol.
    apply not_elem_of_cons in Hcol as [? Hcol]. apply not_elem_of_cons in Hcol as [? Hcol].
    apply not_elem_of_cons in Hcol as [? Hcol].
    rewrite !cellof_insert_ne by done. rewrite cellof_merge_row.
    destruct (decide _) as [Hin'|]; [|done].
    unfold name_columns in Hin'.
    repeat (apply elem_of_cons in Hin' as [?|Hin']); try done.
  - cellof_simpl. by rewrite !cellof_merge_row.
  - cellof_simpl. by rewrite !cellof_merge_row.
  - cellof_simpl. by rewrite !cellof_merge_row.
Qed.


(** The cleaner keeps the rows whose status is "Success", in order, and
    writes only its own columns. *)
Lemma script_clean_sales_rows s cl :
  SalesAnalysis.clean_sales s = Ok cl →
  "Status" ∈ columns s
  ∧ Forall2 (same_outside (cleaner_columns sales_analysis_py))
      (filter (λ r, py_eq (cellof r "Status") (Str "Success")) (rows s)) (rows cl).
Proof.
  unfold SalesAnalysis.clean_sales. intros Hcl.
  apply bind_Ok in Hcl as (d0 & Hd0 & Hcl). apply where_eq_Ok in Hd0 as (Hst & _ & Hrows).
  split; [done|]. rewrite <-Hrows. clear Hrows Hst.
  pose proof (same_outside_refl (cleaner_columns sales_analysis_py) (rows d0)) as HF.
  revert HF. generalize (rows d0) at 1 3. intros L HF.
  apply bind_Ok in Hcl as (dates & _ & Hcl).
  apply (assign_frame _ _ "Date" (λ r, to_datetime dates (cellof r "Date"))) in HF;
    [|compute_done].
  revert Hcl HF. generalize (assign "Date" (λ r, to_datetime dates (cellof r "Date")) d0).
  clear d0. intros d0 Hcl HF.
  apply bind_Ok in Hcl as (stamps & _ & Hcl).
  apply (assign_frame _ _ "Timestamp" (λ r, to_datetime stamps (cellof r "Timestamp")))
    in HF; [|compute_done].
  revert Hcl HF.
  generalize (assign "Timestamp" (λ r, to_datetime stamps (cellof r "Timestamp")) d0).
  clear d0. intros d0 Hcl HF.
  frame_steps Hcl HF.
  eapply assign_from_frame; [exact Hcl | compute_done | exact HF].
Qed.

Lemma dashboard_cleaned_rows s cl :
  Dashboard.cleaned s = Ok cl →
  "Status" ∈ columns s
  ∧ Forall2 (same_outside (cleaner_columns dashboard_py))
      (filter (λ r, py_eq (cellof r "Status") (Str "Success")) (rows s)) (rows cl).
Proof.
  unfold Dashboard.cleaned, Dashboard.clean_sales. intros Hcl.
  apply bind_Ok in Hcl as (d & Hd & Hcl).
  apply bind_Ok in Hd as (d0 & Hd0 & Hd). apply where_eq_Ok in Hd0 as (Hst & _ & Hrows).
  split; [done|]. rewrite <-Hrows. clear Hrows Hst.
  pose proof (same_outside_refl (cleaner_columns dashboard_py) (rows d0)) as HF.
  revert HF. generalize (rows d0) at 1 3. intros L HF.
  apply bind_Ok in Hd as (dates & _ & Hd).
  apply (assign_frame _ _ "Date" (λ r, to_datetime dates (cellof r "Date"))) in HF;
    [|compute_done].
  revert Hd HF. generalize (assign "Date" (λ r, to_datetime dates (cellof r "Date")) d0).
  clear d0. intros d0 Hd HF.
  apply bind_Ok in Hd as (stamps & _ & Hd).
  apply (assign_frame _ _ "Timestamp" (λ r, to_datetime stamps (cellof r "Timestamp")))
    in HF; [|compute_done].
  revert Hd HF.
  generalize (assign "Timestamp" (λ r, to_datetime stamps (cellof r "Timestamp")) d0).
  clear d0. intros d0 Hd HF.
  frame_steps Hd HF.
  assert (Forall2 (same_outside (cleaner_columns dashboard_py)) L (rows d)) as HF'.
  { destruct (has_column _ "Online / Offline");
      (eapply assign_from_frame; [exact Hd | compute_done | exact HF]). }
  clear HF Hd. unfold Dashboard.ensure_outlet in Hcl.
  eapply assign_from_frame; [exact Hcl | compute_done |].
  destruct (has_column d "Outlet"); [done|]. apply assign_frame; [compute_done | done].
Qed.

Lemma cleaned_rows p s cl :
  cleaned p s = Ok cl →
  "Status" ∈ columns s
  ∧ Forall2 (same_outside (cleaner_columns p))
      (filter (λ r, py_eq (cellof r "Status") (Str "Success")) (rows s)) (rows cl).
Proof.
  destruct p; [apply dashboard_cleaned_rows | apply script_clean_sales_rows].
Qed.

Lemma as_str_fill_idem x :
  as_str (fill (Str "Unknown") (as_str (fill (Str "Unknown") x)))
  = as_str (fill (Str "Unknown") x).
Proof. by destruct x. Qed.

(** The component rows of the cleaned combo reference are those of the
    sheet, restricted to the selected columns. *)
Lemma components_select (cs : list string) c crc t :
  select cs c = Ok crc →
  "Item Name" ∈ cs →
  filter (λ r, py_eq (cellof r "Item Name") (cellof t "Item Name")) (rows crc)
  = (λ r, list_to_map ((λ c, (c, cellof r c)) <$> cs)) <$> component_rows c t.
Proof.
  intros [_ Hrows]%select_Ok Hin. rewrite Hrows, filter_fmap. unfold component_rows.
  f_equal. apply filter_ext_in. intros r _. by rewrite cellof_restrict.
Qed.

Lemma values_select (cs : list string) c crc col :
  col ∈ cs → select cs c = Ok crc → values crc col = values c col.
Proof.
  intros Hin [_ Hrows]%select_Ok. unfold values. rewrite Hrows, <-list_fmap_compose.
  apply list_fmap_ext. intros _ r _. simpl. by rewrite cellof_restrict.
Qed.


Lemma is_combo_unique c crc (cs : list string) names t :
  select cs c = Ok crc →
  getcol crc "Item Name" = Ok names →
  "Item Name" ∈ cs →
  isin (unique names) (cellof t "Item Name") = is_combo c t.
Proof.
  intros Hsel [_ ->]%getcol_Ok Hin. rewrite isin_unique. unfold is_combo.
  by rewrite (values_select cs c crc).
Qed.

(** The row the dashboard emits for one component. *)
Lemma dashboard_new_row_spec mapping (t comp : Row) :
  exploded_row dashboard_py mapping t comp
    (<["Sub Category" := as_str (fill (Str "Unknown")
        (cellof (Dashboard.new_row mapping t
                   (list_to_map ((λ c, (c, cellof comp c)) <$>
                      ["Item Name"; "Real Item Name"; "Category"; "Sub Category"])))
                "Sub Category"))]>
      (Dashboard.new_row mapping t
         (list_to_map ((λ c, (c, cellof comp c)) <$>
            ["Item Name"; "Real Item Name"; "Category"; "Sub Category"])))).
Proof.
  set (cs := ["Item Name"; "Real Item Name"; "Category"; "Sub Category"]).
  assert (∀ col, col ∈ cs →
    cellof (list_to_map ((λ c, (c, cellof comp c)) <$> cs)) col = cellof comp col) as Hsel
    by (intros; by apply cellof_restrict).
  unfold exploded_row, Dashboard.new_row, component_categories.
  rewrite !Hsel by compute_done.
  destruct (filter _ (rows mapping)) as [|m ms]; split_and!.
  - intros col Hcol. unfold exploded_columns in Hcol. simpl in Hcol. split_notin Hcol.
    by rewrite !cellof_insert_ne by done.
  - by cellof_simpl.
  - by cellof_simpl.
  - by cellof_simpl.
  - intros col Hcol. unfold exploded_columns in Hcol. simpl in Hcol. split_notin Hcol.
    by rewrite !cellof_insert_ne by done.
  - by cellof_simpl.
  - by cellof_simpl.
  - by cellof_simpl.
Qed.

Lemma dashboard_views s n c rev qty :
  Dashboard.prepare_views s n c = Ok (rev, qty) →
  ∃ cl mapping,
    Dashboard.cleaned s = Ok cl
    ∧ Dashboard.name_ref_clean n = Ok mapping
    ∧ (∀ col, col ∈ name_columns → col ∉ columns cl)
    ∧ Forall2 (kept_row dashboard_py mapping) (rows cl) (rows rev)
    ∧ quantity_view_of c cl qty
        (kept_row dashboard_py mapping) (exploded_row dashboard_py mapping).
Proof.
  unfold Dashboard.prepare_views. intros Hv.
  apply bind_Ok in Hv as (ds & Hds & Hv).
  apply bind_Ok in Hv as (mapping & Hmap & Hv).
  apply bind_Ok in Hv as (crc & Hcrc & Hv).
  apply bind_Ok in Hv as (cl & Hcl & Hv).
  apply bind_Ok in Hv as (rev' & Hrev & Hv).
  apply bind_Ok in Hv as (names & Hnames & Hv).
  apply bind_Ok in Hv as (nc & Hnc & Hv).
  apply bind_Ok in Hv as (ncm & Hncm & Hv).
  apply bind_Ok in Hv as (co & Hco & Hv).
  apply bind_Ok in Hv as (qty' & Hqty & Hv).
  injection Hv as <- <-.
  exists cl, mapping.
  destruct (name_ref_clean_spec _ _ Hmap) as (Hmc & Hmu & _).
  destruct (merge_name_ref_rows dashboard_py _ _ _ Hmc Hmu Hrev) as (Hfresh & _ & Hrows).
  destruct (merge_name_ref_rows dashboard_py _ _ _ Hmc Hmu Hncm) as (_ & _ & Hplain).
  split_and!.
  1:{ unfold Dashboard.cleaned. rewrite Hds. exact Hcl. }
  1-3: done.
  apply where_not_isin_Ok in Hnc as (_ & _ & Hnc).
  apply where_isin_Ok in Hco as (_ & _ & Hco).
  apply assign_from_Ok in Hqty as (_ & ->).
  set (fix_sub := λ r : Row,
         <["Sub Category" := as_str (fill (Str "Unknown") (cellof r "Sub Category"))]> r).
  exists (fix_sub <$> rows ncm),
    ((λ t, fix_sub <$> (Dashboard.new_row mapping t <$> Dashboard.components crc t))
       <$> rows co).
  split_and!.
  - rewrite rows_assign. fold fix_sub. rewrite <-fmap_flat_map, <-fmap_app. f_equal.
    fold (Dashboard.combo_exploded_list mapping crc co).
    destruct (Dashboard.combo_exploded_list mapping crc co); simpl; [by rewrite app_nil_r|done].
  - rewrite Hnc in Hplain.
    rewrite (filter_ext_in (λ r : Row, negb (isin (unique names) (cellof r "Item Name")))
               (λ t, negb (is_combo c t))) in Hplain.
    2:{ intros t _. rewrite (is_combo_unique c crc _ names t Hcrc Hnames); [done | compute_done]. }
    apply Forall2_fmap_r. eapply Forall2_impl; [exact Hplain|].
    intros t v (Hout & Hr & Hp & Hs). unfold fix_sub, kept_row. split_and!.
    + intros col Hcol. rewrite cellof_insert_ne; [by apply Hout|].
      intros <-. apply Hcol. compute_done.
    + by cellof_simpl.
    + by cellof_simpl.
    + cellof_simpl. rewrite Hs. simpl. apply as_str_fill_idem.
  - rewrite Hco.
    rewrite (filter_ext_in (λ r : Row, isin (unique names) (cellof r "Item Name"))
               (λ t, is_combo c t)).
    2:{ intros t _. rewrite (is_combo_unique c crc _ names t Hcrc Hnames); [done | compute_done]. }
    apply Forall2_fmap_r, Forall_Forall2_diag, Forall_forall. intros t _.
    cbv beta zeta delta [Dashboard.components compose].
    rewrite (components_select _ c crc t Hcrc) by compute_done.
    do 3 apply Forall2_fmap_r. apply Forall_Forall2_diag, Forall_forall. intros comp _.
    apply dashboard_new_row_spec.
Qed.


Lemma suffix_free_categories : suffix_free ["Parent Category"; "Sub Category"].
Proof.
  intros c d Hc Hd. apply suffix_free_name_columns; unfold name_columns; by right.
Qed.

(** The frame the script builds from the exploded rows, row by row. *)
Lemma script_combo_exploded mapping co (L : list Row) E :
  SalesAnalysis.combo_exploded mapping co L = Ok E →
  (L ≠ [] → columns E ≠ [])
  ∧ ∃ G : Row → Row, rows E = G <$> L ∧ ∀ r, r ∈ L →
      let m := lookup_key "Real Item Name" (cellof r "Real Item Name") (rows mapping) in
      same_outside ["Qty."; "Parent Category"; "Sub Category"; "Component Qty"] r (G r)
      ∧ cellof (G r) "Qty." = cellof r "Component Qty"
      ∧ cellof (G r) "Parent Category"
        = fill (Str "Unknown") (from_option (λ r, cellof r "Parent Category") NaN m)
      ∧ cellof (G r) "Sub Category"
        = fill (Str "Unknown") (from_option (λ r, cellof r "Sub Category") NaN m).
Proof.
  unfold SalesAnalysis.combo_exploded. destruct L as [|r0 L0].
  { intros [= <-]. split; [done|]. exists (λ r, r). split; [done|].
    by intros r ?%elem_of_nil. }
  set (L := r0 :: L0). intros HE.
  apply bind_Ok in HE as (d1 & Hd1 & HE). apply assign_from_Ok in Hd1 as (_ & Hd1).
  apply bind_Ok in HE as (sel & Hsel & HE).
  apply bind_Ok in HE as (cats & Hcats & HE).
  apply bind_Ok in HE as (d3 & Hd3 & HE).
  apply bind_Ok in HE as (d4 & Hd4 & HE). apply assign_from_Ok in Hd4 as (Hc4 & ->).
  apply bind_Ok in HE as (d5 & Hd5 & HE). apply assign_from_Ok in Hd5 as (Hc5 & ->).
  injection HE as <-.
  rewrite columns_assign_present in Hc5 by done.
  pose proof (drop_duplicates_uniq _ _ _ Hcats) as Hu.
  apply drop_duplicates_Ok in Hcats as (Hcc & Hcr).
  apply select_Ok in Hsel as (Hsc & Hsr).
  assert (filter (λ c, c ≠ "Real Item Name") (columns cats)
          = ["Parent Category"; "Sub Category"]) as Hrc by (by rewrite Hcc, Hsc).
  apply merge_left_Ok in Hd3 as (_ & Hc3 & Hr3); rewrite ?Hrc;
    [|done|apply suffix_free_categories|].
  2:{ intros c Hc. repeat (apply elem_of_cons in Hc as [->|Hc]); try done.
      by apply elem_of_nil in Hc. }
  rewrite Hrc in *. split.
  { intros _. rewrite columns_drop_columns. rewrite !columns_assign_present by
      (repeat apply columns_assign_mono; done).
    intros Hnil. assert ("Parent Category" ∈ @nil string) as Hin; [|by apply elem_of_nil in Hin].
    rewrite <-Hnil. apply list_elem_of_filter. split; [compute_done | done]. }
  set (d2 := if has_column d1 "Parent Category"
             then drop_columns ["Parent Category"; "Sub Category"] d1 else d1) in *.
  set (h := λ r : Row, if has_column d1 "Parent Category"
                       then foldr delete r ["Parent Category"; "Sub Category"] else r).
  assert (rows d2 = h <$> rows d1) as Hr2.
  { unfold d2, h. destruct (has_column d1 "Parent Category"); [done|].
    by rewrite list_fmap_id. }
  assert (∀ r col, col ∉ ["Parent Category"; "Sub Category"] → cellof (h r) col = cellof r col)
    as Hh.
  { intros r col Hcol. unfold h. destruct (has_column d1 "Parent Category"); [|done].
    by apply cellof_drop. }
  assert (∀ k col, col ∈ ["Real Item Name"; "Parent Category"; "Sub Category"] →
    from_option (λ r, cellof r col) NaN (lookup_key "Real Item Name" k (rows cats))
    = from_option (λ r, cellof r col) NaN (lookup_key "Real Item Name" k (rows mapping)))
    as Hlook.
  { intros k col Hcol. rewrite Hcr, lookup_key_drop_dup by done.
    rewrite Hsr, lookup_key_fmap by (intros; apply cellof_restrict; compute_done).
    destruct (lookup_key _ k (rows mapping)) as [m|]; [|done].
    exact (cellof_restrict m _ col Hcol). }
  eexists. split.
  { rewrite rows_drop_columns, !rows_assign, Hr3, Hr2, Hd1, rows_assign.
    cbn [rows]. rewrite <-!list_fmap_compose. reflexivity. }
  intros r _. cbv beta zeta delta [compose]. split_and!.
  - intros col Hcol. split_notin Hcol.
    rewrite cellof_drop by notin_tac. rewrite !cellof_insert_ne by done.
    rewrite cellof_merge_row. rewrite decide_False by notin_tac.
    rewrite Hh by notin_tac. by rewrite cellof_insert_ne.
  - rewrite cellof_drop by compute_done. rewrite !cellof_insert_ne by done.
    rewrite cellof_merge_row, decide_False by compute_done.
    rewrite Hh by compute_done. by rewrite cellof_insert.
  - rewrite cellof_drop by compute_done. rewrite cellof_insert_ne by done.
    rewrite cellof_insert, cellof_merge_row, decide_True by compute_done.
    rewrite Hlook by compute_done. rewrite Hh by compute_done.
    by rewrite cellof_insert_ne.
  - rewrite cellof_drop by compute_done. rewrite cellof_insert.
    rewrite cellof_insert_ne by done.
    rewrite cellof_merge_row, decide_True by compute_done.
    rewrite Hlook by compute_done. rewrite Hh by compute_done.
    by rewrite cellof_insert_ne.
Qed.


Lemma script_views s n c rev qty :
  SalesAnalysis.prepare_data s n c = Ok (rev, qty) →
  ∃ cl mapping,
    SalesAnalysis.clean_sales s = Ok cl
    ∧ SalesAnalysis.name_ref_clean n = Ok mapping
    ∧ (∀ col, col ∈ name_columns → col ∉ columns cl)
    ∧ Forall2 (kept_row sales_analysis_py mapping) (rows cl) (rows rev)
    ∧ quantity_view_of c cl qty
        (kept_row sales_analysis_py mapping) (exploded_row sales_analysis_py mapping).
Proof.
  unfold SalesAnalysis.prepare_data. intros Hv.
  apply bind_Ok in Hv as (cl & Hcl & Hv).
  apply bind_Ok in Hv as (mapping & Hmap & Hv).
  apply bind_Ok in Hv as (rev' & Hrev & Hv).
  apply bind_Ok in Hv as (crc & Hcrc & Hv).
  apply bind_Ok in Hv as (names & Hnames & Hv).
  apply bind_Ok in Hv as (nc & Hnc & Hv).
  apply bind_Ok in Hv as (ncm & Hncm & Hv).
  apply bind_Ok in Hv as (co & Hco & Hv).
  apply bind_Ok in Hv as (E & HE & Hv).
  injection Hv as <- <-.
  exists cl, mapping.
  destruct (name_ref_clean_spec _ _ Hmap) as (Hmc & Hmu & _).
  destruct (merge_name_ref_rows sales_analysis_py _ _ _ Hmc Hmu Hrev)
    as (Hfresh & _ & Hrows).
  destruct (merge_name_ref_rows sales_analysis_py _ _ _ Hmc Hmu Hncm) as (_ & _ & Hplain).
  split_and!; [done..|].
  apply where_not_isin_Ok in Hnc as (_ & _ & Hnc).
  apply where_isin_Ok in Hco as (_ & _ & Hco).
  apply script_combo_exploded in HE as (Hcols & G & HG & HGspec).
  unfold SalesAnalysis.combo_exploded_list in *.
  exists (rows ncm),
    ((λ t, G <$> (SalesAnalysis.new_row t <$> SalesAnalysis.components crc t))
       <$> rows co).
  split_and!.
  - rewrite <-fmap_flat_map, <-HG.
    destruct (negb (SalesAnalysis.empty E)) eqn:Hempty; [done|].
    apply negb_false_iff in Hempty. unfold SalesAnalysis.empty in Hempty.
    destruct (rows E) as [|e es] eqn:HrE; [by rewrite app_nil_r|].
    destruct (columns E) eqn:HcE; [|done]. destruct Hcols; [|done].
    intros Hnil. rewrite Hnil in HG. done.
  - rewrite Hnc in Hplain.
    rewrite (filter_ext_in (λ r : Row, negb (isin (unique names) (cellof r "Item Name")))
               (λ t, negb (is_combo c t))) in Hplain; [done|].
    intros t _. rewrite (is_combo_unique c crc _ names t Hcrc Hnames); [done | compute_done].
  - rewrite (filter_ext_in (λ r : Row, isin (unique names) (cellof r "Item Name"))
               (λ t, is_combo c t)) in Hco.
    2:{ intros t _. rewrite (is_combo_unique c crc _ names t Hcrc Hnames); [done | compute_done]. }
    rewrite Hco.
    apply Forall2_fmap_r, Forall_Forall2_diag, Forall_forall. intros t Ht.
    cbv beta zeta delta [SalesAnalysis.components compose].
    rewrite (components_select _ c crc t Hcrc) by compute_done.
    do 3 apply Forall2_fmap_r. apply Forall_Forall2_diag, Forall_forall. intros comp Hcomp.
    set (comp' := list_to_map ((λ c0, (c0, cellof comp c0))
                     <$> ["Item Name"; "Real Item Name"]) : Row).
    change (exploded_row sales_analysis_py mapping t comp
              (G (SalesAnalysis.new_row t comp'))).
    assert (cellof comp' "Real Item Name" = cellof comp "Real Item Name") as Hrin
      by (apply cellof_restrict; compute_done).
    destruct (HGspec (SalesAnalysis.new_row t comp')) as (Hout & Hq & Hp & Hs).
    { apply (elem_of_flat_map _ _ t); [by rewrite Hco|].
      apply list_elem_of_fmap. exists comp'. split; [done|].
      unfold SalesAnalysis.components.
      rewrite (components_select _ c crc t Hcrc) by compute_done.
      apply list_elem_of_fmap. by exists comp. }
    unfold SalesAnalysis.new_row in *. unfold exploded_row, component_categories.
    split_and!.
    + intros col Hcol. unfold exploded_columns in Hcol. simpl in Hcol. split_notin Hcol.
      rewrite Hout by notin_tac. by rewrite !cellof_insert_ne by done.
    + rewrite Hout by compute_done. rewrite cellof_insert_ne by done.
      by rewrite cellof_insert.
    + rewrite Hq. by rewrite cellof_insert.
    + rewrite Hp, Hs. rewrite cellof_insert_ne by done. by rewrite cellof_insert, Hrin.
Qed.

Lemma reconcile_views p s n c rev qty :
  reconcile p s n c = Ok (rev, qty) →
  ∃ cl mapping,
    cleaned p s = Ok cl
    ∧ item_mapping p n = Ok mapping
    ∧ (∀ col, col ∈ name_columns → col ∉ columns cl)
    ∧ Forall2 (kept_row p mapping) (rows cl) (rows rev)
    ∧ quantity_view_of c cl qty (kept_row p mapping) (exploded_row p mapping).
Proof. destruct p; [apply dashboard_views | apply script_views]. Qed.

End stage_facts.

(* ===================================================================== *)
(** * Properties of the two views *)
(* ===================================================================== *)

Section view_facts.
Context `{PandasLib}.

Lemma Forall2_elem_of_r {A B} (R : A → B → Prop) (l : list A) (k : list B) (y : B) :
  Forall2 R l k → y ∈ k → ∃ x, x ∈ l ∧ R x y.
Proof.
  intros HF (i & Hi)%list_elem_of_lookup.
  destruct (Forall2_lookup_r _ _ _ _ _ HF Hi) as (x & Hx & HR).
  exists x. split; [by eapply list_elem_of_lookup_2 | done].
Qed.

Lemma Forall2_same_values (col : string) (l k : list Row) :
  Forall2 (λ t v, cellof v col = cellof t col) l k →
  (λ r, cellof r col) <$> k = (λ r, cellof r col) <$> l.
Proof. induction 1 as [|t v l k Htv _ IH]; [done|]. cbn. by rewrite Htv, IH. Qed.

Lemma quantity_view_of_impl c cl qty (K K' : Row → Row → Prop)
    (E E' : Row → Row → Row → Prop) :
  (∀ t v, K t v → K' t v) →
  (∀ t comp out, E t comp out → E' t comp out) →
  quantity_view_of c cl qty K E → quantity_view_of c cl qty K' E'.
Proof.
  intros HK HE (plain & exploded & Hrows & Hplain & Hexp).
  exists plain, exploded. split_and!; [done | |].
  - eapply Forall2_impl; [exact Hplain | exact HK].
  - eapply Forall2_impl; [exact Hexp|]. intros t outs Houts.
    eapply Forall2_impl; [exact Houts | apply HE].
Qed.

(** Every row of a Quantity View comes from a cleaned transaction. *)
Lemma quantity_view_of_rows c cl qty (K : Row → Row → Prop)
    (E : Row → Row → Row → Prop) (v : Row) :
  quantity_view_of c cl qty K E → v ∈ rows qty →
  ∃ t, t ∈ rows cl ∧ (K t v ∨ ∃ comp, E t comp v).
Proof.
  intros (plain & exploded & Hrows & Hplain & Hexp). rewrite Hrows.
  intros [Hv|Hv]%elem_of_app.
  - destruct (Forall2_elem_of_r _ _ _ _ Hplain Hv) as (t & Ht & HK).
    apply list_elem_of_filter in Ht as [_ Ht]. eauto.
  - apply list_elem_of_In, in_concat in Hv as (outs & Houts & Hv).
    apply list_elem_of_In in Houts, Hv.
    destruct (Forall2_elem_of_r _ _ _ _ Hexp Houts) as (t & Ht & HE).
    destruct (Forall2_elem_of_r _ _ _ _ HE Hv) as (comp & _ & HEv).
    apply list_elem_of_filter in Ht as [_ Ht]. eauto.
Qed.

Lemma kept_row_outside p mapping t v col :
  kept_row p mapping t v → col ∉ name_columns → cellof v col = cellof t col.
Proof. intros (Hout & _) Hcol. by apply Hout. Qed.

Lemma sub_str_Unknown p : sub_str p (Str "Unknown") = Str "Unknown".
Proof. by destruct p. Qed.

(** An item that is not a key of the item reference is not a key of the
    item mapping either. *)
Lemma unmapped_lookup p n mapping t :
  item_mapping p n = Ok mapping → unmapped n t →
  lookup_key "Item Name" (cellof t "Item Name") (rows mapping) = None.
Proof.
  intros Hmap Hun.
  assert (Dashboard.name_ref_clean n = Ok mapping) as Hmap' by (by destruct p).
  destruct (name_ref_clean_spec _ _ Hmap') as (_ & _ & Hrows).
  unfold lookup_key. rewrite filter_none; [done|].
  apply Forall_forall. intros m' Hm' Hkey.
  destruct (Hrows m' Hm') as (m & Hm & Hitem & _). rewrite Hitem in Hkey.
  apply Is_true_true in Hkey. by rewrite (Hun m Hm) in Hkey.
Qed.

Lemma kept_row_unmapped p n mapping t v :
  item_mapping p n = Ok mapping → unmapped n t → kept_row p mapping t v →
  cellof v "Real Item Name" = cellof t "Item Name"
  ∧ cellof v "Parent Category" = Str "Unknown"
  ∧ cellof v "Sub Category" = Str "Unknown".
Proof.
  intros Hmap Hun (_ & Hr & Hp & Hs).
  rewrite (unmapped_lookup p n mapping t Hmap Hun) in Hr, Hp, Hs. simpl in *.
  split_and!; [done | done |]. rewrite Hs. apply sub_str_Unknown.
Qed.


Lemma py_eq_sym a b : py_eq a b = py_eq b a.
Proof.
  destruct a as [|s|x], b as [|t|y]; simpl; try done.
  - apply bool_decide_ext; naive_solver.
  - apply Qeq_bool_comm.
Qed.

(** A combo name that is not missing has a component row. *)
Lemma combo_has_components c t :
  is_combo c t = true → cellof t "Item Name" ≠ NaN → component_rows c t ≠ [].
Proof.
  unfold is_combo, isin, values, component_rows. intros Hin Hname.
  apply existsb_exists in Hin as (k & Hk & Hsame).
  apply list_elem_of_In, list_elem_of_fmap in Hk as (comp & -> & Hcomp).
  rewrite same_key_py_eq in Hsame by done. intros Hnil.
  assert (comp ∈ filter (λ c0 : Row, py_eq (cellof c0 "Item Name") (cellof t "Item Name"))
                   (rows c)) as Hin.
  { apply list_elem_of_filter. split; [|done]. by rewrite py_eq_sym, Hsame. }
  rewrite Hnil in Hin. by apply elem_of_nil in Hin.
Qed.


Lemma load_data_unfold src use :
  Dashboard.load_data src use
  = match (Dashboard.load_sources src use).2 ≫=
            (λ '(s, n, c), Dashboard.prepare_views s n c) with
    | Ok views => ((Dashboard.load_sources src use).1, Some views)
    | Raise e =>
        ((Dashboard.load_sources src use).1 ++ [Dashboard.st_error_loading_data e], None)
    end.
Proof. unfold Dashboard.load_data. by destruct (Dashboard.load_sources src use). Qed.

Lemma reconcile_no_status p s n c :
  "Status" ∉ columns s → reconcile p s n c = Raise (KeyError ["Status"]).
Proof.
  intros Hst%has_column_false.
  destruct p; simpl; unfold Dashboard.prepare_views, SalesAnalysis.prepare_data,
    Dashboard.clean_sales, SalesAnalysis.clean_sales, where_eq; by rewrite Hst.
Qed.

Lemma dashboard_category_spec mapping comp out :
  (cellof out "Parent Category", cellof out "Sub Category")
  = component_categories dashboard_py mapping comp →
  dashboard_category_resolution mapping comp out.
Proof.
  unfold component_categories, dashboard_category_resolution.
  destruct (filter _ (rows mapping)) as [|m ms]; intros [= -> ->]; split; try done.
  by destruct (cellof comp "Sub Category"), (cellof comp "Real Item Name").
Qed.

Lemma script_category_spec mapping comp out :
  (cellof out "Parent Category", cellof out "Sub Category")
  = component_categories sales_analysis_py mapping comp →
  script_category_resolution mapping comp out.
Proof.
  unfold component_categories, script_category_resolution.
  by destruct (lookup_key _ _ (rows mapping)); intros [= -> ->].
Qed.

End view_facts.

Section claims.
Context `{PandasLib}.

(** C1 (revenue conservation).  Whenever either program builds its views,
    the "Final Total" column of the Revenue View is, cell for cell and in
    order, the "Final Total" column of the cleaned transaction set; so the two
    sums are the same number, whatever the order or rounding of the
    summation. *)
Theorem revenue_conservation (p : program) (s n c rev qty : DataFrame) :
  reconcile p s n c = Ok (rev, qty) →
  ∃ cl, cleaned p s = Ok cl
    ∧ values rev "Final Total" = values cl "Final Total"
    ∧ series_sum (values rev "Final Total") = series_sum (values cl "Final Total").
Proof.
  intros (cl & mapping & Hcl & _ & _ & Hrev & _)%reconcile_views.
  exists cl. split; [done|].
  assert (values rev "Final Total" = values cl "Final Total") as Hval; [|by rewrite Hval].
  apply Forall2_same_values. eapply Forall2_impl; [exact Hrev|].
  intros t v Hk. eapply kept_row_outside; [exact Hk | compute_done].
Qed.

(** C5 (row-count invariant).  The item mapping has one row per key, and the
    Revenue View has exactly one row per cleaned transaction, in the same
    order, with every column of the cleaned set unchanged. *)
Theorem revenue_row_count (p : program) (s n c rev qty : DataFrame) :
  reconcile p s n c = Ok (rev, qty) →
  ∃ cl mapping, cleaned p s = Ok cl
    ∧ item_mapping p n = Ok mapping
    ∧ uniq_keys (values mapping "Item Name")
    ∧ length (rows rev) = length (rows cl)
    ∧ Forall2 (same_on (columns cl)) (rows cl) (rows rev).
Proof.
  intros (cl & mapping & Hcl & Hmap & Hfresh & Hrev & _)%reconcile_views.
  exists cl, mapping. split_and!; [done | done | | |].
  - assert (Dashboard.name_ref_clean n = Ok mapping) as Hmap' by (by destruct p).
    by destruct (name_ref_clean_spec _ _ Hmap') as (_ & ? & _).
  - symmetry. by eapply Forall2_length.
  - eapply Forall2_impl; [exact Hrev|]. intros t v Hk col Hcol.
    eapply kept_row_outside; [exact Hk|]. intros Hin. by apply (Hfresh col).
Qed.

(** C9 (fallback for unmapped items).  The Revenue View row of a cleaned
    transaction whose item name is not a key of the item reference has the
    item name as canonical name and "Unknown" as parent and sub category; so
    has its Quantity View row when the item is not a combo.  The views are a
    function of the three sheets: any run on the same sheets returns them. *)
Theorem unmapped_fallback (p : program) (s n c rev qty : DataFrame) :
  reconcile p s n c = Ok (rev, qty) →
  ∃ cl, cleaned p s = Ok cl
    ∧ (∀ i t, rows cl !! i = Some t → unmapped n t →
         ∃ v, rows rev !! i = Some v
           ∧ cellof v "Real Item Name" = cellof t "Item Name"
           ∧ cellof v "Parent Category" = Str "Unknown"
           ∧ cellof v "Sub Category" = Str "Unknown")
    ∧ (∀ t, t ∈ rows cl → is_combo c t = false → unmapped n t →
         ∃ v, v ∈ rows qty
           ∧ same_on (columns cl) t v
           ∧ cellof v "Real Item Name" = cellof t "Item Name"
           ∧ cellof v "Parent Category" = Str "Unknown"
           ∧ cellof v "Sub Category" = Str "Unknown")
    ∧ (∀ views, reconcile p s n c = Ok views → views = (rev, qty)).
Proof.
  intros Hv. destruct (reconcile_views _ _ _ _ _ _ Hv)
    as (cl & mapping & Hcl & Hmap & Hfresh & Hrev & plain & exploded & Hq & Hplain & _).
  exists cl. split_and!; [done | | |].
  - intros i t Hi Hun.
    destruct (Forall2_lookup_l _ _ _ _ _ Hrev Hi) as (v & Hv' & Hk).
    exists v. split; [done|]. by eapply kept_row_unmapped.
  - intros t Ht Hcombo Hun.
    assert (t ∈ filter (λ t, negb (is_combo c t)) (rows cl)) as Hin.
    { apply list_elem_of_filter. split; [by rewrite Hcombo | done]. }
    apply list_elem_of_lookup in Hin as (i & Hi).
    destruct (Forall2_lookup_l _ _ _ _ _ Hplain Hi) as (v & Hv' & Hk).
    exists v. split_and!.
    + rewrite Hq. apply elem_of_app. left. by eapply list_elem_of_lookup_2.
    + intros col Hcol. eapply kept_row_outside; [exact Hk|].
      intros Hin. by apply (Hfresh col).
    + by eapply kept_row_unmapped.
    + by eapply kept_row_unmapped.
    + by eapply kept_row_unmapped.
  - intros views Hviews. rewrite Hv in Hviews. by injection Hviews.
Qed.


(** C8 (status filtering).  The cleaned transaction set consists of the raw
    rows whose status is the string "Success", one for one and in order
    (each is the raw row outside the columns the cleaner writes); and every
    row of either view has status "Success", so none has status "Failed". *)
Theorem status_filter (p : program) (s n c rev qty : DataFrame) :
  reconcile p s n c = Ok (rev, qty) →
  ∃ cl, cleaned p s = Ok cl
    ∧ Forall2 (same_outside (cleaner_columns p))
        (filter (λ r, cellof r "Status" = Str "Success") (rows s)) (rows cl)
    ∧ ∀ v, v ∈ rows rev ∨ v ∈ rows qty →
        cellof v "Status" = Str "Success" ∧ cellof v "Status" ≠ Str "Failed".
Proof.
  intros (cl & mapping & Hcl & _ & _ & Hrev & Hqty)%reconcile_views.
  exists cl. destruct (cleaned_rows p s cl Hcl) as (_ & Hrows).
  rewrite (filter_ext_in (λ r : Row, py_eq (cellof r "Status") (Str "Success"))
             (λ r : Row, cellof r "Status" = Str "Success")) in Hrows
    by (intros r _; rewrite Is_true_true; apply py_eq_Str).
  split_and!; [done | done |].
  assert (∀ t, t ∈ rows cl → cellof t "Status" = Str "Success") as Hclean.
  { intros t Ht. destruct (Forall2_elem_of_r _ _ _ _ Hrows Ht) as (r & Hr & Hrt).
    apply list_elem_of_filter in Hr as [Hr _]. rewrite <-Hr. apply Hrt.
    destruct p; compute_done. }
  assert (∀ v, v ∈ rows rev ∨ v ∈ rows qty → cellof v "Status" = Str "Success") as Hall.
  { intros v [Hv|Hv].
    - destruct (Forall2_elem_of_r _ _ _ _ Hrev Hv) as (t & Ht & Hk).
      rewrite <-(Hclean t Ht). eapply kept_row_outside; [exact Hk | compute_done].
    - destruct (quantity_view_of_rows _ _ _ _ _ v Hqty Hv) as (t & Ht & [Hk|[comp HE]]).
      + rewrite <-(Hclean t Ht). eapply kept_row_outside; [exact Hk | compute_done].
      + rewrite <-(Hclean t Ht). destruct HE as (Hout & _). apply Hout.
        destruct p; compute_done. }
  intros v Hv. rewrite (Hall v Hv). by split.
Qed.


(** C10 (multiplicity one).  Whatever the combo reference contains, every row
    emitted for a combo transaction has exactly the quantity of the
    transaction. *)
Theorem exploded_quantity (p : program) (s n c rev qty : DataFrame) :
  reconcile p s n c = Ok (rev, qty) →
  ∃ cl, cleaned p s = Ok cl
    ∧ quantity_view_of c cl qty (λ _ _, True)
        (λ t comp out, cellof out "Qty." = cellof t "Qty.").
Proof.
  intros (cl & mapping & Hcl & _ & _ & _ & Hqty)%reconcile_views.
  exists cl. split; [done|].
  eapply quantity_view_of_impl; [| |exact Hqty]; [done|].
  intros t comp out (_ & _ & Hq & _). by rewrite Hq, mul_int_1.
Qed.



(** C4 (category resolution), as the code has it.  Each row emitted for a
    component has the component's canonical name and, in the dashboard, the
    categories of the first row of the item mapping with that canonical name;
    when there is none, the parent category of the combo reference's hint and,
    as sub-category, the hint's if present, else the canonical name, else
    "Unknown" (the sub-category is made a string, a missing one of the item
    mapping becoming "Unknown").  In the script the categories are those of
    the item mapping for the canonical name, each replaced by "Unknown" when
    missing or when the name is not in the mapping. *)
Theorem category_resolution_order (p : program) (s n c rev qty : DataFrame) :
  reconcile p s n c = Ok (rev, qty) →
  ∃ cl mapping, cleaned p s = Ok cl
    ∧ item_mapping p n = Ok mapping
    ∧ quantity_view_of c cl qty (λ _ _, True)
        (λ t comp out,
           cellof out "Real Item Name" = cellof comp "Real Item Name"
           ∧ category_resolution p mapping comp out).
Proof.
  intros (cl & mapping & Hcl & Hmap & _ & _ & Hqty)%reconcile_views.
  exists cl, mapping. split_and!; [done | done |].
  eapply quantity_view_of_impl; [| |exact Hqty]; [done|].
  intros t comp out (_ & Hr & _ & Hcat). split; [done|].
  destruct p; [by apply dashboard_category_spec | by apply script_category_spec].
Qed.


(** C6 (failure signalling), as the code has it.  When no source can be
    loaded, or the transaction sheet has no "Status" column, [load_data]
    reports the exception and returns no views, and the script stops with the
    same exception.  When the sheet has the column and no row with status
    "Success", each program that completes returns two views without rows,
    and [load_data] reports nothing. *)
Theorem failure_signalling (src : Dashboard.source) (use_google_sheets : bool) :
  match Dashboard.load_sources src use_google_sheets with
  | (calls, Raise e) =>
      Dashboard.load_data src use_google_sheets
      = (calls ++ [Dashboard.st_error_loading_data e], None)
  | (calls, Ok (s, n, c)) =>
      ("Status" ∉ columns s →
         Dashboard.load_data src use_google_sheets
         = (calls ++ [Dashboard.st_error_loading_data (KeyError ["Status"])], None)
         ∧ ∀ p, reconcile p s n c = Raise (KeyError ["Status"]))
      ∧ (Forall (λ r, cellof r "Status" ≠ Str "Success") (rows s) →
         ∀ p rev qty, reconcile p s n c = Ok (rev, qty) →
           rows rev = [] ∧ rows qty = []
           ∧ (p = dashboard_py →
              Dashboard.load_data src use_google_sheets = (calls, Some (rev, qty))))
  end.
Proof.
  rewrite load_data_unfold.
  destruct (Dashboard.load_sources src use_google_sheets) as [calls got]. simpl.
  destruct got as [[[s n] c]|e]; simpl; [|done]. split.
  - intros Hst. split; [|intros p; by apply reconcile_no_status].
    pose proof (reconcile_no_status dashboard_py s n c Hst) as Hd. simpl in Hd.
    by rewrite Hd.
  - intros Hnone p rev qty Hv.
    destruct (reconcile_views _ _ _ _ _ _ Hv)
      as (cl & mapping & Hcl & _ & _ & Hrev & plain & exploded & Hq & Hplain & Hexp).
    destruct (cleaned_rows p s cl Hcl) as (_ & Hrows).
    rewrite filter_none in Hrows.
    2:{ eapply Forall_impl; [exact Hnone|]. intros r Hr Hpy. apply Hr.
        by apply py_eq_Str, Is_true_true. }
    apply Forall2_nil_inv_l in Hrows. rewrite Hrows in *.
    apply Forall2_nil_inv_l in Hrev, Hplain, Hexp. subst plain exploded.
    split_and!; [done | by rewrite Hq |]. intros ->. simpl in Hv. by rewrite Hv.
Qed.

End claims.

(* ===================================================================== *)
(** * The properties on the sample data *)
(* ===================================================================== *)

Ltac run := vm_compute; reflexivity.

Lemma revenue_conservation_witness :
  ∃ rev qty,
    @reconcile Sample.lib dashboard_py Sample.sales Sample.name_ref Sample.combo_ref
    = Ok (rev, qty)
    ∧ ∃ cl, @cleaned Sample.lib dashboard_py Sample.sales = Ok cl
        ∧ values rev "Final Total" = values cl "Final Total"
        ∧ series_sum (values rev "Final Total") = series_sum (values cl "Final Total").
Proof.
  exists SampleRuns.dashboard_views.1, SampleRuns.dashboard_views.2.
  assert (@reconcile Sample.lib dashboard_py Sample.sales Sample.name_ref Sample.combo_ref
          = Ok (SampleRuns.dashboard_views.1, SampleRuns.dashboard_views.2)) as Hrun by run.
  split; [exact Hrun | exact (revenue_conservation _ _ _ _ _ _ Hrun)].
Defined.

Lemma revenue_row_count_witness :
  ∃ rev qty,
    @reconcile Sample.lib sales_analysis_py Sample.sales Sample.name_ref Sample.combo_ref
    = Ok (rev, qty)
    ∧ ∃ cl mapping, @cleaned Sample.lib sales_analysis_py Sample.sales = Ok cl
        ∧ item_mapping sales_analysis_py Sample.name_ref = Ok mapping
        ∧ uniq_keys (values mapping "Item Name")
        ∧ length (rows rev) = length (rows cl)
        ∧ Forall2 (same_on (columns cl)) (rows cl) (rows rev).
Proof.
  exists SampleRuns.script_views.1, SampleRuns.script_views.2.
  assert (@reconcile Sample.lib sales_analysis_py Sample.sales Sample.name_ref Sample.combo_ref
          = Ok (SampleRuns.script_views.1, SampleRuns.script_views.2)) as Hrun by run.
  split; [exact Hrun | exact (revenue_row_count _ _ _ _ _ _ Hrun)].
Defined.

Lemma unmapped_fallback_witness :
  ∃ rev qty,
    @reconcile Sample.lib dashboard_py Sample.sales Sample.name_ref Sample.combo_ref
    = Ok (rev, qty)
    ∧ ∃ cl, @cleaned Sample.lib dashboard_py Sample.sales = Ok cl
        ∧ (∀ i t, rows cl !! i = Some t → unmapped Sample.name_ref t →
             ∃ v, rows rev !! i = Some v
               ∧ cellof v "Real Item Name" = cellof t "Item Name"
               ∧ cellof v "Parent Category" = Str "Unknown"
               ∧ cellof v "Sub Category" = Str "Unknown")
        ∧ (∀ t, t ∈ rows cl → is_combo Sample.combo_ref t = false →
             unmapped Sample.name_ref t →
             ∃ v, v ∈ rows qty
               ∧ same_on (columns cl) t v
               ∧ cellof v "Real Item Name" = cellof t "Item Name"
               ∧ cellof v "Parent Category" = Str "Unknown"
               ∧ cellof v "Sub Category" = Str "Unknown")
        ∧ (∀ views,
             @reconcile Sample.lib dashboard_py Sample.sales Sample.name_ref
               Sample.combo_ref = Ok views →
             views = (rev, qty)).
Proof.
  exists SampleRuns.dashboard_views.1, SampleRuns.dashboard_views.2.
  assert (@reconcile Sample.lib dashboard_py Sample.sales Sample.name_ref Sample.combo_ref
          = Ok (SampleRuns.dashboard_views.1, SampleRuns.dashboard_views.2)) as Hrun by run.
  split; [exact Hrun | exact (unmapped_fallback _ _ _ _ _ _ Hrun)].
Defined.

Lemma status_filter_witness :
  ∃ rev qty,
    @reconcile Sample.lib sales_analysis_py Sample.sales Sample.name_ref Sample.combo_ref
    = Ok (rev, qty)
    ∧ ∃ cl, @cleaned Sample.lib sales_analysis_py Sample.sales = Ok cl
        ∧ Forall2 (same_outside (cleaner_columns sales_analysis_py))
            (filter (λ r, cellof r "Status" = Str "Success") (rows Sample.sales))
            (rows cl)
        ∧ ∀ v, v ∈ rows rev ∨ v ∈ rows qty →
            cellof v "Status" = Str "Success" ∧ cellof v "Status" ≠ Str "Failed".
Proof.
  exists SampleRuns.script_views.1, SampleRuns.script_views.2.
  assert (@reconcile Sample.lib sales_analysis_py Sample.sales Sample.name_ref Sample.combo_ref
          = Ok (SampleRuns.script_views.1, SampleRuns.script_views.2)) as Hrun by run.
  split; [exact Hrun | exact (status_filter _ _ _ _ _ _ Hrun)].
Defined.


Lemma exploded_quantity_witness :
  ∃ rev qty,
    @reconcile Sample.lib dashboard_py Sample.sales Sample.name_ref Sample.combo_ref
    = Ok (rev, qty)
    ∧ ∃ cl, @cleaned Sample.lib dashboard_py Sample.sales = Ok cl
        ∧ quantity_view_of Sample.combo_ref cl qty (λ _ _, True)
            (λ t comp out, cellof out "Qty." = cellof t "Qty.").
Proof.
  exists SampleRuns.dashboard_views.1, SampleRuns.dashboard_views.2.
  assert (@reconcile Sample.lib dashboard_py Sample.sales Sample.name_ref Sample.combo_ref
          = Ok (SampleRuns.dashboard_views.1, SampleRuns.dashboard_views.2)) as Hrun by run.
  split; [exact Hrun | exact (exploded_quantity _ _ _ _ _ _ Hrun)].
Defined.


Lemma category_resolution_order_witness :
  ∃ rev qty,
    @reconcile Sample.lib sales_analysis_py Sample.sales Sample.name_ref Sample.combo_ref
    = Ok (rev, qty)
    ∧ ∃ cl mapping, @cleaned Sample.lib sales_analysis_py Sample.sales = Ok cl
        ∧ item_mapping sales_analysis_py Sample.name_ref = Ok mapping
        ∧ quantity_view_of Sample.combo_ref cl qty (λ _ _, True)
            (λ t comp out,
               cellof out "Real Item Name" = cellof comp "Real Item Name"
               ∧ @category_resolution Sample.lib sales_analysis_py mapping comp out).
Proof.
  exists SampleRuns.script_views.1, SampleRuns.script_views.2.
  assert (@reconcile Sample.lib sales_analysis_py Sample.sales Sample.name_ref Sample.combo_ref
          = Ok (SampleRuns.script_views.1, SampleRuns.script_views.2)) as Hrun by run.
  split; [exact Hrun | exact (category_resolution_order _ _ _ _ _ _ Hrun)].
Defined.



(** C4, as stated, fails in the script: the component Item-Y of Combo-A is
    not in the item mapping and the combo reference gives it the categories
    "Snacks" and "Fried"; its row in the script's Quantity View has "Unknown"
    for both. *)
Lemma script_ignores_hint :
  @reconcile Sample.lib sales_analysis_py Sample.sales Sample.name_ref Sample.combo_ref
  = Ok SampleRuns.script_views
  ∧ item_mapping sales_analysis_py Sample.name_ref = Ok SampleFacts.mapping
  ∧ rows Sample.combo_ref !! 1%nat = Some SampleFacts.item_y
  ∧ rows SampleRuns.script_views.2 !! 3%nat = Some SampleFacts.script_item_y_row
  ∧ cellof SampleFacts.script_item_y_row "Invoice No." = Num 1
  ∧ cellof SampleFacts.script_item_y_row "Real Item Name" = Str "Item-Y"
  ∧ cellof SampleFacts.script_item_y_row "Parent Category" = Str "Unknown"
  ∧ cellof SampleFacts.script_item_y_row "Sub Category" = Str "Unknown"
  ∧ ¬ @spec_category_resolution SampleFacts.mapping SampleFacts.item_y
        SampleFacts.script_item_y_row.
Proof.
  split_and!; try run.
  intros Hspec. vm_compute in Hspec. destruct Hspec as [Hparent _]. discriminate Hparent.
Qed.

(** On the same sheets the dashboard resolves the categories as worded. *)
Lemma dashboard_follows_hint :
  cellof SampleFacts.dashboard_item_y_row "Real Item Name" = Str "Item-Y"
  ∧ cellof SampleFacts.dashboard_item_y_row "Parent Category" = Str "Snacks"
  ∧ cellof SampleFacts.dashboard_item_y_row "Sub Category" = Str "Fried"
  ∧ @spec_category_resolution SampleFacts.mapping SampleFacts.item_y
      SampleFacts.dashboard_item_y_row.
Proof. split_and!; try run. vm_compute. by split. Qed.

(** C6, as stated, fails: a sheet with the "Status" column in which every
    sale failed.  [load_data] returns two views without rows, and its only
    call is the notice of the data source. *)
Lemma empty_views_unflagged :
  @Dashboard.load_data Sample.lib
    (Sample.excel Sample.failed_sales Sample.combo_ref) false
  = ([Dashboard.sidebar_info "📁 Data loaded from local Excel file"],
     Some (loaded_views SampleRuns.loaded_failed))
  ∧ "Status" ∈ columns Sample.failed_sales
  ∧ Forall (λ r, cellof r "Status" ≠ Str "Success") (rows Sample.failed_sales)
  ∧ rows (loaded_views SampleRuns.loaded_failed).1 = []
  ∧ rows (loaded_views SampleRuns.loaded_failed).2 = [].
Proof.
  split_and!; try run.
  - compute_done.
  - repeat constructor. vm_compute. discriminate.
Qed.

(* ===================================================================== *)
(** * The cleaner, cell by cell *)
(* ===================================================================== *)

Section cleaner_facts.
Context `{PandasLib}.

Lemma elem_of_series_labels (cols added : list string) c :
  c ∈ series_labels cols added ↔ c ∈ cols ∨ c ∈ added.
Proof.
  unfold series_labels. revert cols. induction added as [|a added IH]; intros cols; simpl.
  - rewrite elem_of_nil. tauto.
  - rewrite IH. case_bool_decide as Ha.
    + rewrite elem_of_cons. split; [tauto|]. intros [?|[->|?]]; tauto.
    + rewrite elem_of_app, !elem_of_cons, elem_of_nil. tauto.
Qed.

Lemma series_labels_app (cols a b : list string) :
  series_labels cols (a ++ b) = series_labels (series_labels cols a) b.
Proof. unfold series_labels. by rewrite foldl_app. Qed.

Lemma columns_assign c f df : columns (assign c f df) = series_labels (columns df) [c].
Proof. unfold assign, series_labels, has_column. simpl. done. Qed.

(** ** The rows of the cleaner, one assignment at a time *)

Lemma written_insert (F : Row → string → cell) T r v dst x :
  written F T r v → x = F r dst → written F (T ++ [dst]) r (<[dst := x]> v).
Proof.
  intros Hw -> col. destruct (decide (col = dst)) as [->|Hne].
  - rewrite cellof_insert, bool_decide_eq_true_2; [done|].
    apply elem_of_app. right. by apply list_elem_of_singleton.
  - rewrite cellof_insert_ne by done. rewrite (Hw col).
    apply (f_equal (λ b : bool, if b then F r col else cellof r col)).
    apply bool_decide_ext. rewrite elem_of_app, list_elem_of_singleton. tauto.
Qed.

Lemma stage_assign s F L T dst f df :
  stage s F L T df → (∀ r v, written F T r v → f v = F r dst) →
  stage s F L (T ++ [dst]) (assign dst f df).
Proof.
  intros [Hc Hr] Hf. split.
  - by rewrite columns_assign, Hc, series_labels_app.
  - rewrite rows_assign. apply Forall2_fmap_r. eapply Forall2_impl; [exact Hr|].
    intros r v Hw. apply written_insert; [done | by apply Hf].
Qed.

Lemma stage_assign_from s F L T dst src g df out :
  assign_from dst src g df = Ok out → stage s F L T df →
  (∀ r v, written F T r v → g (cellof v src) = F r dst) →
  src ∈ columns df ∧ stage s F L (T ++ [dst]) out.
Proof.
  intros [Hsrc ->]%assign_from_Ok Hst Hg. split; [done|]. by apply stage_assign.
Qed.

Lemma stage_values s F L T df col :
  stage s F L T df → col ∉ T → values df col = (λ r, cellof r col) <$> L.
Proof.
  intros [_ Hr] Hcol. unfold values.
  induction Hr as [|r v l k Hw _ IH]; [done|]. cbn. rewrite IH. f_equal.
  rewrite (Hw col). by rewrite bool_decide_eq_false_2.
Qed.

Lemma stage_columns s F L T df c :
  stage s F L T df → c ∈ columns df → c ∉ T → c ∈ columns s.
Proof.
  intros [Hc _] Hin Hn. rewrite Hc in Hin.
  apply elem_of_series_labels in Hin as [?|?]; done.
Qed.

End cleaner_facts.

Ltac decide_cols :=
  repeat first [ rewrite bool_decide_eq_true_2 by compute_done
               | rewrite bool_decide_eq_false_2 by compute_done ].

Ltac cell_side :=
  let r := fresh "r" in let v := fresh "v" in let Hw := fresh "Hw" in
  intros r v Hw; unfold written in Hw; rewrite ?Hw; unfold clean_cell; cbv iota;
  repeat match goal with Hh : has_column _ _ = _ |- _ => rewrite Hh end;
  decide_cols; reflexivity.

(** One assignment of the cleaner: [Hst] is the stage reached, [H] the rest
    of the run. *)
Ltac clean_step H Hst :=
  let d := fresh "d" in let Hd := fresh "Hd" in let Hc := fresh "Hc" in
  apply bind_Ok in H as (d & Hd & H);
  eapply stage_assign_from in Hd as [Hc Hd]; [|exact Hst|cell_side];
  first [ apply (stage_columns _ _ _ _ _ _ Hst) in Hc; [|compute_done] | clear Hc ];
  clear Hst; rename Hd into Hst; simpl app in Hst.

Section cleaner_spec.
Context `{PandasLib}.

Lemma stage_start p s d0 :
  where_eq "Status" (Str "Success") s = Ok d0 →
  "Status" ∈ columns s
  ∧ stage s (clean_cell p s) (successful s) [] d0.
Proof.
  intros (Hst & Hc & Hr)%where_eq_Ok. split; [done|]. split; [done|].
  rewrite Hr. apply Forall_Forall2_diag, Forall_forall. intros r _ col.
  by rewrite bool_decide_eq_false_2 by apply not_elem_of_nil.
Qed.

Lemma has_column_stage s F L T df c :
  stage s F L T df → c ∉ T → has_column df c = has_column s c.
Proof.
  intros [Hc _] Hn. unfold has_column. apply bool_decide_ext.
  rewrite Hc, elem_of_series_labels. tauto.
Qed.

(** The part of the cleaner the two programs share: the status filter, the
    conversions and the calendar fields. *)
Lemma clean_sales_common p s (k : DataFrame → result DataFrame) cl :
  (df_sales ← where_eq "Status" (Str "Success") s;
   dates ← getcol df_sales "Date";
   let df_sales := assign "Date" (λ r, to_datetime dates (cellof r "Date")) df_sales in
   stamps ← getcol df_sales "Timestamp";
   let df_sales :=
     assign "Timestamp" (λ r, to_datetime stamps (cellof r "Timestamp")) df_sales in
   df_sales ← for_each_col to_numeric SalesAnalysis.numeric_cols df_sales;
   df_sales ← assign_from "Year" "Date" dt_year df_sales;
   df_sales ← assign_from "Month" "Date" dt_month df_sales;
   df_sales ← assign_from "Month-Year" "Date" dt_period_month_str df_sales;
   df_sales ← assign_from "Week" "Date" dt_isocalendar_week df_sales;
   df_sales ← assign_from "DayOfWeek" "Date" dt_day_name df_sales;
   df_sales ← assign_from "Hour" "Timestamp" dt_hour df_sales;
   k df_sales) = Ok cl →
  ∃ d, k d = Ok cl
    ∧ Forall (λ c, c ∈ columns s)
        ["Status"; "Date"; "Timestamp"; "Price"; "Qty."; "Sub Total"; "Discount"; "Tax";
         "Final Total"]
    ∧ stage s (clean_cell p s) (successful s)
        ["Date"; "Timestamp"; "Price"; "Qty."; "Sub Total"; "Discount"; "Tax";
         "Final Total"; "Year"; "Month"; "Month-Year"; "Week"; "DayOfWeek"; "Hour"] d.
Proof.
  intros Hcl.
  apply bind_Ok in Hcl as (d0 & Hd0 & Hcl).
  apply (stage_start p) in Hd0 as [Hstatus Hst].
  apply bind_Ok in Hcl as (dates & Hdates & Hcl).
  apply getcol_Ok in Hdates as [Hdate ->].
  rewrite (stage_values _ _ _ _ _ _ Hst) in Hcl by apply not_elem_of_nil.
  apply (stage_columns _ _ _ _ _ _ Hst) in Hdate; [|apply not_elem_of_nil].
  eapply (stage_assign _ _ _ _ "Date" (λ r : Row,
    to_datetime ((λ r0 : Row, cellof r0 "Date") <$> successful s) (cellof r "Date")))
    in Hst; [|cell_side]. simpl app in Hst.
  revert Hcl Hst. generalize (assign "Date"
    (λ r : Row, to_datetime ((λ r0 : Row, cellof r0 "Date") <$> successful s)
                  (cellof r "Date")) d0).
  clear d0. intros d0 Hcl Hst.
  apply bind_Ok in Hcl as (stamps & Hstamps & Hcl).
  apply getcol_Ok in Hstamps as [Hstamp ->].
  rewrite (stage_values _ _ _ _ _ _ Hst) in Hcl by compute_done.
  apply (stage_columns _ _ _ _ _ _ Hst) in Hstamp; [|compute_done].
  eapply (stage_assign _ _ _ _ "Timestamp" (λ r : Row,
    to_datetime ((λ r0 : Row, cellof r0 "Timestamp") <$> successful s)
      (cellof r "Timestamp"))) in Hst; [|cell_side]. simpl app in Hst.
  revert Hcl Hst. generalize (assign "Timestamp"
    (λ r : Row, to_datetime ((λ r0 : Row, cellof r0 "Timestamp") <$> successful s)
                  (cellof r "Timestamp")) d0).
  clear d0. intros d0 Hcl Hst.
  unfold SalesAnalysis.numeric_cols in Hcl. cbn [for_each_col] in Hcl.
  apply bind_Ok in Hcl as (d6 & Hnum & Hcl).
  do 6 clean_step Hnum Hst. cbn in Hnum. injection Hnum as <-.
  do 6 clean_step Hcl Hst.
  eexists. split; [exact Hcl|]. split; [|exact Hst].
  repeat (apply Forall_cons; split; [done|]). constructor.
Qed.

End cleaner_spec.

Section cleaner_cells.
Context `{PandasLib}.

Lemma clean_cell_other p s r col :
  col ∉ cleaner_columns p → clean_cell p s r col = cellof r col.
Proof.
  intros Hcol. unfold clean_cell.
  assert (col ∉ cleaner_columns sales_analysis_py) as Hs.
  { intros Hin. apply Hcol. unfold cleaner_columns in *. apply elem_of_app. left.
    by rewrite app_nil_r in Hin. }
  unfold cleaner_columns in Hs. simpl in Hs. split_notin Hs.
  rewrite (bool_decide_eq_false_2 (col ∈ _)).
  2:{ unfold SalesAnalysis.numeric_cols. intros Hin.
      repeat (apply elem_of_cons in Hin as [->|Hin]; [done|]). by apply elem_of_nil in Hin. }
  rewrite !bool_decide_eq_false_2 by done.
  case_bool_decide as Hout; [|done]. subst col. destruct p; [|done].
  exfalso. apply Hcol. compute_done.
Qed.

Lemma stage_final p s T cl :
  stage s (clean_cell p s) (successful s) T cl →
  (∀ c, c ∈ T ↔ c ∈ cleaner_columns p) →
  series_labels (columns s) T = series_labels (columns s) (cleaner_columns p) →
  columns cl = series_labels (columns s) (cleaner_columns p)
  ∧ Forall2 (λ r v, ∀ col, cellof v col = clean_cell p s r col) (successful s) (rows cl).
Proof.
  intros [Hc Hr] HT Heq. split; [congruence|].
  eapply Forall2_impl; [exact Hr|]. intros r v Hw col. rewrite (Hw col).
  case_bool_decide as Hin; [done|]. rewrite clean_cell_other; [done|]. by rewrite <-HT.
Qed.

Lemma series_labels_twice (cols T : list string) c :
  series_labels cols (T ++ [c; c]) = series_labels cols (T ++ [c]).
Proof.
  rewrite !series_labels_app. generalize (series_labels cols T). intros l.
  unfold series_labels. simpl. destruct (decide (c ∈ l)) as [Hc|Hc].
  - by rewrite !(bool_decide_eq_true_2 (c ∈ l)) by done.
  - rewrite (bool_decide_eq_false_2 (c ∈ l)) by done.
    rewrite bool_decide_eq_true_2; [done|]. apply elem_of_app. right.
    by apply list_elem_of_singleton.
Qed.

(** The cleaner of the script, cell by cell. *)
Lemma script_clean_sales_spec s cl :
  SalesAnalysis.clean_sales s = Ok cl →
  Forall (λ c, c ∈ columns s) (cleaner_reads sales_analysis_py s)
  ∧ columns cl = series_labels (columns s) (cleaner_columns sales_analysis_py)
  ∧ Forall2 (λ r v, ∀ col, cellof v col = clean_cell sales_analysis_py s r col)
      (successful s) (rows cl).
Proof.
  unfold SalesAnalysis.clean_sales. intros Hcl.
  apply (clean_sales_common sales_analysis_py) in Hcl as (d & Hcl & Hreads & Hst).
  eapply stage_assign_from in Hcl as [Harea Hst']; [|exact Hst|cell_side].
  apply (stage_columns _ _ _ _ _ _ Hst) in Harea; [|compute_done].
  simpl app in Hst'. split.
  - unfold cleaner_reads. rewrite Forall_forall in Hreads. apply Forall_forall.
    intros c Hc. repeat (apply elem_of_cons in Hc as [->|Hc]; [first [done | apply Hreads; compute_done]|]).
    by apply elem_of_nil in Hc.
  - by apply (stage_final _ _ _ _ Hst').
Qed.

(** The cleaner of the dashboard and its outlet column, cell by cell. *)
Lemma dashboard_cleaned_spec s cl :
  Dashboard.cleaned s = Ok cl →
  Forall (λ c, c ∈ columns s) (cleaner_reads dashboard_py s)
  ∧ columns cl = series_labels (columns s) (cleaner_columns dashboard_py)
  ∧ Forall2 (λ r v, ∀ col, cellof v col = clean_cell dashboard_py s r col)
      (successful s) (rows cl).
Proof.
  unfold Dashboard.cleaned. intros Hcl. apply bind_Ok in Hcl as (ds & Hds & Hcl).
  unfold Dashboard.clean_sales in Hds.
  apply (clean_sales_common dashboard_py) in Hds as (d & Hds & Hreads & Hst).
  rewrite (has_column_stage _ _ _ _ _ _ Hst) in Hds by compute_done.
  assert (∃ src, cleaner_reads dashboard_py s
                 = ["Status"; "Date"; "Timestamp"; "Price"; "Qty."; "Sub Total";
                    "Discount"; "Tax"; "Final Total"; src]
            ∧ src ∈ columns s
            ∧ stage s (clean_cell dashboard_py s) (successful s)
                ["Date"; "Timestamp"; "Price"; "Qty."; "Sub Total"; "Discount"; "Tax";
                 "Final Total"; "Year"; "Month"; "Month-Year"; "Week"; "DayOfWeek";
                 "Hour"; "Sales Channel"] ds) as (src & Hsrcs & Hsrc & Hst').
  { unfold cleaner_reads.
    destruct (has_column s "Online / Offline") eqn:Hon.
    - eapply stage_assign_from in Hds as [Hsrc Hst']; [|exact Hst|cell_side].
      apply (stage_columns _ _ _ _ _ _ Hst) in Hsrc; [|compute_done]. eauto.
    - eapply stage_assign_from in Hds as [Hsrc Hst']; [|exact Hst|cell_side].
      apply (stage_columns _ _ _ _ _ _ Hst) in Hsrc; [|compute_done]. eauto. }
  clear Hst Hds d. split.
  { rewrite Hsrcs. rewrite Forall_forall in Hreads. apply Forall_forall.
    intros c Hc. repeat (apply elem_of_cons in Hc as [->|Hc]; [first [done | apply Hreads; compute_done]|]).
    by apply elem_of_nil in Hc. }
  unfold Dashboard.ensure_outlet in Hcl.
  rewrite (has_column_stage _ _ _ _ _ _ Hst') in Hcl by compute_done.
  destruct (has_column s "Outlet") eqn:Hout.
  - eapply stage_assign_from in Hcl as [_ Hst]; [|exact Hst'|cell_side].
    simpl app in Hst. by apply (stage_final _ _ _ _ Hst).
  - eapply (stage_assign _ _ _ _ "Outlet" (λ _, Str "Unknown")) in Hst'; [|cell_side].
    eapply stage_assign_from in Hcl as [_ Hst]; [|exact Hst'|cell_side].
    simpl app in Hst. apply (stage_final _ _ _ _ Hst).
    + intros c. unfold cleaner_columns. simpl. rewrite !elem_of_cons. tauto.
    + apply (series_labels_twice (columns s)
        ["Date"; "Timestamp"; "Price"; "Qty."; "Sub Total"; "Discount"; "Tax";
         "Final Total"; "Year"; "Month"; "Month-Year"; "Week"; "DayOfWeek";
         "Hour"; "Sales Channel"] "Outlet").
Qed.

Lemma cleaned_spec p s cl :
  cleaned p s = Ok cl →
  Forall (λ c, c ∈ columns s) (cleaner_reads p s)
  ∧ columns cl = series_labels (columns s) (cleaner_columns p)
  ∧ Forall2 (λ r v, ∀ col, cellof v col = clean_cell p s r col) (successful s) (rows cl).
Proof. destruct p; [apply dashboard_cleaned_spec | apply script_clean_sales_spec]. Qed.

End cleaner_cells.

(* ===================================================================== *)
(** * When a run completes, and what it raises when it does not *)
(* ===================================================================== *)

Section outcome.
Context `{PandasLib}.

Lemma result_bind_assoc {A B C} (m : result A) (f : A → result B) (k : B → result C) :
  (m ≫= f) ≫= k = m ≫= (λ x, f x ≫= k).
Proof. by destruct m. Qed.

Lemma ensure_outlet_returns df : ∃ out, Dashboard.ensure_outlet df = Ok out.
Proof.
  unfold Dashboard.ensure_outlet, fillna, assign_from.
  destruct (has_column df "Outlet") eqn:Hout.
  - rewrite Hout. eauto.
  - rewrite (proj2 (has_column_true _ _)); [eauto|].
    rewrite columns_assign. apply elem_of_series_labels. right. by left.
Qed.

Lemma outcome_where_eq {A} s c v reads (k : DataFrame → result A) :
  (∀ df, columns df = series_labels (columns s) [] → c ∈ columns s →
         outcome s reads (k df)) →
  outcome s (c :: reads) (where_eq c v s ≫= k).
Proof.
  intros Hk. unfold outcome, where_eq, has_column. rewrite filter_cons.
  destruct (decide (c ∈ columns s)) as [Hc|Hc].
  - rewrite decide_False by tauto. rewrite bool_decide_eq_true_2 by done.
    by apply Hk.
  - rewrite decide_True by done. by rewrite bool_decide_eq_false_2 by done.
Qed.

Lemma outcome_getcol {A} s T c reads df (k : list cell → result A) :
  columns df = series_labels (columns s) T → c ∉ T →
  (c ∈ columns s → ∀ l, outcome s reads (k l)) →
  outcome s (c :: reads) (getcol df c ≫= k).
Proof.
  intros Hcols HT Hk. unfold outcome, getcol, has_column. rewrite filter_cons, Hcols.
  destruct (decide (c ∈ columns s)) as [Hc|Hc].
  - rewrite decide_False by tauto. rewrite bool_decide_eq_true_2.
    + by apply Hk.
    + apply elem_of_series_labels. by left.
  - rewrite decide_True by done. rewrite bool_decide_eq_false_2; [done|].
    rewrite elem_of_series_labels. tauto.
Qed.

Lemma outcome_assign_from {A} s T dst src g reads df (k : DataFrame → result A) :
  columns df = series_labels (columns s) T → src ∉ T →
  (∀ df', columns df' = series_labels (columns s) (T ++ [dst]) → src ∈ columns s →
          outcome s reads (k df')) →
  outcome s (src :: reads) (assign_from dst src g df ≫= k).
Proof.
  intros Hcols HT Hk. unfold outcome, assign_from, has_column. rewrite filter_cons, Hcols.
  destruct (decide (src ∈ columns s)) as [Hc|Hc].
  - rewrite decide_False by tauto. rewrite bool_decide_eq_true_2.
    + apply Hk; [|done]. by rewrite columns_assign, Hcols, series_labels_app.
    + apply elem_of_series_labels. by left.
  - rewrite decide_True by done. rewrite bool_decide_eq_false_2; [done|].
    rewrite elem_of_series_labels. tauto.
Qed.

Lemma outcome_assign_from_known {A} s T dst src g reads df (k : DataFrame → result A) :
  columns df = series_labels (columns s) T → src ∈ columns s ∨ src ∈ T →
  (∀ df', columns df' = series_labels (columns s) (T ++ [dst]) → outcome s reads (k df')) →
  outcome s reads (assign_from dst src g df ≫= k).
Proof.
  intros Hcols HT Hk. unfold assign_from, has_column.
  rewrite bool_decide_eq_true_2 by (by rewrite Hcols, elem_of_series_labels).
  apply Hk. by rewrite columns_assign, Hcols, series_labels_app.
Qed.

Ltac known_step :=
  let d := fresh "d" in let Hd := fresh "Hd" in
  rewrite ?result_bind_assoc;
  eapply outcome_assign_from_known;
    [eassumption | first [by left | right; compute_done] |];
  simpl app; intros d Hd; cbv beta.

Ltac read_step :=
  let d := fresh "d" in let Hd := fresh "Hd" in let Hc := fresh "Hc" in
  rewrite ?result_bind_assoc;
  eapply outcome_assign_from; [eassumption | compute_done |];
  simpl app; intros d Hd Hc; cbv beta.

Lemma clean_sales_common_outcome s {A} (k : DataFrame → result A) (reads : list string) :
  (∀ d, columns d = series_labels (columns s)
          ["Date"; "Timestamp"; "Price"; "Qty."; "Sub Total"; "Discount"; "Tax";
           "Final Total"; "Year"; "Month"; "Month-Year"; "Week"; "DayOfWeek"; "Hour"] →
        outcome s reads (k d)) →
  outcome s
    (["Status"; "Date"; "Timestamp"; "Price"; "Qty."; "Sub Total"; "Discount"; "Tax";
      "Final Total"] ++ reads)
    (df_sales ← where_eq "Status" (Str "Success") s;
     dates ← getcol df_sales "Date";
     let df_sales := assign "Date" (λ r, to_datetime dates (cellof r "Date")) df_sales in
     stamps ← getcol df_sales "Timestamp";
     let df_sales :=
       assign "Timestamp" (λ r, to_datetime stamps (cellof r "Timestamp")) df_sales in
     df_sales ← for_each_col to_numeric SalesAnalysis.numeric_cols df_sales;
     df_sales ← assign_from "Year" "Date" dt_year df_sales;
     df_sales ← assign_from "Month" "Date" dt_month df_sales;
     df_sales ← assign_from "Month-Year" "Date" dt_period_month_str df_sales;
     df_sales ← assign_from "Week" "Date" dt_isocalendar_week df_sales;
     df_sales ← assign_from "DayOfWeek" "Date" dt_day_name df_sales;
     df_sales ← assign_from "Hour" "Timestamp" dt_hour df_sales;
     k df_sales).
Proof.
  intros Hk. simpl app.
  apply outcome_where_eq. intros d0 Hd0 Hstatus.
  eapply outcome_getcol; [exact Hd0 | apply not_elem_of_nil |]. intros Hdate dates.
  cbv zeta.
  assert (columns (assign "Date" (λ r, to_datetime dates (cellof r "Date")) d0)
          = series_labels (columns s) ["Date"]) as Hd1
    by (by rewrite columns_assign, Hd0, <-series_labels_app).
  revert Hd1. generalize (assign "Date" (λ r, to_datetime dates (cellof r "Date")) d0).
  clear d0 Hd0. intros d0 Hd0.
  eapply outcome_getcol; [exact Hd0 | compute_done |]. intros Hstamp stamps.
  assert (columns (assign "Timestamp" (λ r, to_datetime stamps (cellof r "Timestamp")) d0)
          = series_labels (columns s) ["Date"; "Timestamp"]) as Hd1
    by (by rewrite columns_assign, Hd0, <-series_labels_app).
  revert Hd1.
  generalize (assign "Timestamp" (λ r, to_datetime stamps (cellof r "Timestamp")) d0).
  clear d0 Hd0. intros d0 Hd0.
  unfold SalesAnalysis.numeric_cols. cbn [for_each_col].
  do 6 read_step. cbn [mbind result_bind].
  do 6 known_step.
  by apply Hk.
Qed.

End outcome.

Section outcome2.
Context `{PandasLib}.

Lemma outcome_bind_total {A B} s reads (r : result A) (f : A → result B) :
  outcome s reads r → (∀ a, ∃ b, f a = Ok b) → outcome s reads (r ≫= f).
Proof.
  unfold outcome. destruct (filter _ reads) as [|col ?].
  - intros [a ->] Hf. simpl. apply Hf.
  - by intros -> _.
Qed.

Lemma outcome_assign_from_last s T dst src g df :
  columns df = series_labels (columns s) T → src ∉ T →
  outcome s [src] (assign_from dst src g df).
Proof.
  intros Hcols HT. unfold outcome, assign_from, has_column.
  rewrite filter_cons, filter_nil, Hcols.
  destruct (decide (src ∈ columns s)) as [Hc|Hc].
  - rewrite decide_False by tauto. rewrite bool_decide_eq_true_2; [eauto|].
    apply elem_of_series_labels. by left.
  - rewrite decide_True by done. rewrite bool_decide_eq_false_2; [done|].
    rewrite elem_of_series_labels. tauto.
Qed.

Lemma has_column_labels (s df : DataFrame) T c :
  columns df = series_labels (columns s) T → c ∉ T → has_column df c = has_column s c.
Proof.
  intros Hc Hn. unfold has_column. apply bool_decide_ext.
  rewrite Hc, elem_of_series_labels. tauto.
Qed.

(** The cleaner completes when the sheet has every column it reads, and
    raises the [KeyError] of the first it has not. *)
Lemma cleaned_outcome p s : outcome s (cleaner_reads p s) (cleaned p s).
Proof.
  destruct p; simpl.
  - unfold Dashboard.cleaned. apply outcome_bind_total; [|apply ensure_outlet_returns].
    unfold Dashboard.clean_sales.
    apply (clean_sales_common_outcome s
             (λ df, if has_column df "Online / Offline"
                    then assign_from "Sales Channel" "Online / Offline" id df
                    else assign_from "Sales Channel" "Area" Dashboard.channel_of_area df)
             [if has_column s "Online / Offline" then "Online / Offline" else "Area"]).
    intros d Hd. rewrite (has_column_labels s d _ _ Hd) by compute_done.
    destruct (has_column s "Online / Offline");
      (eapply outcome_assign_from_last; [exact Hd | compute_done]).
  - unfold SalesAnalysis.clean_sales.
    apply (clean_sales_common_outcome s
             (λ df, assign_from "Sales Channel" "Area" SalesAnalysis.channel_of_area df)
             ["Area"]).
    intros d Hd. eapply outcome_assign_from_last; [exact Hd | compute_done].
Qed.

(** The two forms of the outcome, as facts about the list of columns. *)
Lemma filter_missing_nil (cols reads : list string) :
  filter (λ c, c ∉ cols) reads = [] ↔ Forall (λ c, c ∈ cols) reads.
Proof.
  induction reads as [|c reads IH]; [by split|]. rewrite filter_cons, Forall_cons.
  destruct (decide (c ∉ cols)) as [Hc|Hc]; [split; [done | tauto]|].
  apply dec_stable in Hc. rewrite IH. tauto.
Qed.

Lemma cleaned_returns p s :
  Forall (λ c, c ∈ columns s) (cleaner_reads p s) → ∃ cl, cleaned p s = Ok cl.
Proof.
  intros Hall%filter_missing_nil. pose proof (cleaned_outcome p s) as Ho.
  unfold outcome in Ho. by rewrite Hall in Ho.
Qed.


End outcome2.

Section returns.
Context `{PandasLib}.


Lemma select_returns cs df :
  Forall (λ c, c ∈ columns df) cs →
  select cs df
  = Ok {| columns := cs;
          rows := (λ r, list_to_map ((λ c, (c, cellof r c)) <$> cs)) <$> rows df |}.
Proof. intros Hall%filter_missing_nil. unfold select. by rewrite Hall. Qed.

Lemma select_raises cs df c missing :
  filter (λ c, c ∉ columns df) cs = c :: missing →
  select cs df = Raise (KeyError (c :: missing)).
Proof. intros Hm. unfold select. by rewrite Hm. Qed.



Lemma item_mapping_eq p n : item_mapping p n = Dashboard.name_ref_clean n.
Proof. by destruct p. Qed.


End returns.

Section returns2.
Context `{PandasLib}.

Lemma script_combo_exploded_returns mapping co L :
  columns mapping = ["Item Name"; "Real Item Name"; "Parent Category"; "Sub Category"] →
  "Parent Category" ∉ columns co → "Sub Category" ∉ columns co →
  ∃ E, SalesAnalysis.combo_exploded mapping co L = Ok E
    ∧ ∀ c, c ∈ columns E →
        c ∈ columns co ∨ c ∈ ["Real Item Name"; "Qty."; "Parent Category"; "Sub Category"].
Proof.
  intros Hm Hpc Hsc. unfold SalesAnalysis.combo_exploded. destruct L as [|r0 L0].
  { eexists. split; [done|]. by intros c ?%elem_of_nil. }
  set (L := r0 :: L0). clearbody L. clear r0 L0.
  set (d0 := {| columns := series_labels (columns co) ["Real Item Name"; "Component Qty"];
                rows := L |}).
  assert (∀ c, c ∈ columns d0 ↔ c ∈ columns co ∨ c ∈ ["Real Item Name"; "Component Qty"])
    as Hd0 by (intros c; apply elem_of_series_labels).
  unfold assign_from at 1.
  rewrite (proj2 (has_column_true d0 "Component Qty")) by (apply Hd0; right; compute_done).
  cbn [mbind result_bind].
  set (d1 := assign "Qty." (λ r, id (cellof r "Component Qty")) d0).
  assert (∀ c, c ∈ columns d1 ↔ c ∈ columns d0 ∨ c = "Qty.") as Hd1.
  { intros c. unfold d1. rewrite columns_assign, elem_of_series_labels.
    by rewrite list_elem_of_singleton. }
  assert (∀ c, c ∈ ["Parent Category"; "Sub Category"] → c ∉ columns d1) as Hfresh.
  { intros c Hc. rewrite Hd1, Hd0. intros [[?|Hin]| ->].
    - repeat (apply elem_of_cons in Hc as [->|Hc]; [done|]). by apply elem_of_nil in Hc.
    - revert Hin. repeat (apply elem_of_cons in Hc as [->|Hc]; [compute_done|]).
      by apply elem_of_nil in Hc.
    - revert Hc. compute_done. }
  rewrite (proj2 (has_column_false d1 "Parent Category")) by (apply Hfresh; compute_done).
  rewrite select_returns by (rewrite Hm; compute_done). cbn [mbind result_bind].
  unfold drop_duplicates at 1.
  rewrite (proj2 (has_column_true _ "Real Item Name")) by compute_done.
  cbn [mbind result_bind rows columns].
  unfold merge_left at 1. cbn [columns].
  rewrite (proj2 (has_column_true d1 "Real Item Name"))
    by (apply Hd1; left; apply Hd0; right; compute_done).
  rewrite (proj2 (has_column_true _ "Real Item Name")) by compute_done.
  cbn [andb mbind result_bind].
  change (filter (λ c : string, c ≠ "Real Item Name")
            ["Real Item Name"; "Parent Category"; "Sub Category"])
    with ["Parent Category"; "Sub Category"].
  rewrite (filter_none (λ c, c ∈ columns d1)).
  2:{ apply Forall_forall. exact Hfresh. }
  unfold fillna, assign_from.
  rewrite (proj2 (has_column_true _ "Parent Category")).
  2:{ cbn [columns]. apply elem_of_app. right. compute_done. }
  cbn [mbind result_bind].
  rewrite (proj2 (has_column_true _ "Sub Category")).
  2:{ apply columns_assign_mono. cbn [columns]. apply elem_of_app. right. compute_done. }
  cbn [mbind result_bind]. eexists. split; [done|].
  intros c. rewrite columns_drop_columns.
  rewrite (columns_assign_present "Sub Category")
    by (apply columns_assign_mono; cbn [columns]; apply elem_of_app; right; compute_done).
  rewrite (columns_assign_present "Parent Category")
    by (cbn [columns]; apply elem_of_app; right; compute_done).
  cbn [columns]. intros [Hne Hin]%list_elem_of_filter.
  apply elem_of_app in Hin as [(d & -> & Hd)%list_elem_of_fmap|(d & -> & Hd)%list_elem_of_fmap];
    rewrite suffixed_nil in *.
  - apply Hd1 in Hd as [Hd| ->]; [|right; compute_done].
    apply Hd0 in Hd as [?|Hd]; [by left|]. right.
    apply elem_of_cons in Hd as [->|Hd]; [compute_done|].
    apply list_elem_of_singleton in Hd as ->. destruct Hne. compute_done.
  - right. revert Hd. rewrite !elem_of_cons. tauto.
Qed.

End returns2.

Section returns3.
Context `{PandasLib}.

Lemma cleaned_columns p s cl c :
  cleaned p s = Ok cl → c ∈ columns cl ↔ c ∈ columns s ∨ c ∈ cleaner_columns p.
Proof.
  intros (_ & Hc & _)%cleaned_spec. rewrite Hc. apply elem_of_series_labels.
Qed.








End returns3.

Section returns4.
Context `{PandasLib}.



End returns4.

Section collision.
Context `{PandasLib}.




End collision.

Section outcomes.
Context `{PandasLib}.





(** X3.  When the cleaner completes and the item reference lacks some of its
    four columns, the run raises a [KeyError] that lists every missing one,
    in the order Item, Real Name, Parent, Sub Category. *)
Theorem missing_reference_columns (p : program) (s n c : DataFrame) (col : string)
    (rest : list string) :
  Forall (λ x, x ∈ columns s) (cleaner_reads p s) →
  filter (λ x, x ∉ columns n) reference_columns = col :: rest →
  reconcile p s n c = Raise (KeyError (col :: rest)).
Proof.
  intros Hreads Hm. destruct (cleaned_returns p s Hreads) as (cl & Hcl).
  unfold reference_columns in Hm.
  destruct p; simpl in *.
  - unfold Dashboard.cleaned in Hcl. apply bind_Ok in Hcl as (ds & Hds & _).
    unfold Dashboard.prepare_views, Dashboard.name_ref_clean.
    by rewrite Hds, (select_raises _ _ _ _ Hm).
  - unfold SalesAnalysis.prepare_data, SalesAnalysis.name_ref_clean.
    by rewrite Hcl, (select_raises _ _ _ _ Hm).
Qed.


End outcomes.

(* ===================================================================== *)
(** * Further properties of the two views *)
(* ===================================================================== *)

Section schema.
Context `{PandasLib}.

Lemma pd_concat_columns_sub a b :
  (∀ c, c ∈ columns b → c ∈ columns a) → columns (pd_concat a b) = columns a.
Proof.
  intros Hsub. unfold pd_concat. cbn [columns].
  rewrite (filter_none (λ c, c ∉ columns a)); [by rewrite app_nil_r|].
  apply Forall_forall. intros c Hc Hn. by apply Hn, Hsub.
Qed.

Lemma qty_in_cleaned p s cl : cleaned p s = Ok cl → "Qty." ∈ columns cl.
Proof.
  intros Hcl. apply (cleaned_columns _ _ _ _ Hcl). right. destruct p; compute_done.
Qed.

Lemma dashboard_schema s n c rev qty :
  Dashboard.prepare_views s n c = Ok (rev, qty) →
  ∃ cl, Dashboard.cleaned s = Ok cl
    ∧ columns rev = columns cl ++ name_columns ∧ columns qty = columns rev.
Proof.
  unfold Dashboard.prepare_views. intros Hv.
  apply bind_Ok in Hv as (ds & Hds & Hv).
  apply bind_Ok in Hv as (mapping & Hmap & Hv).
  apply bind_Ok in Hv as (crc & Hcrc & Hv).
  apply bind_Ok in Hv as (cl & Hcl & Hv).
  apply bind_Ok in Hv as (rev' & Hrev & Hv).
  apply bind_Ok in Hv as (names & Hnames & Hv).
  apply bind_Ok in Hv as (nc & Hnc & Hv).
  apply bind_Ok in Hv as (ncm & Hncm & Hv).
  apply bind_Ok in Hv as (co & Hco & Hv).
  apply bind_Ok in Hv as (qty' & Hqty & Hv).
  injection Hv as <- <-.
  assert (Dashboard.cleaned s = Ok cl) as Hcleaned
    by (unfold Dashboard.cleaned; by rewrite Hds).
  exists cl. split; [done|].
  destruct (name_ref_clean_spec _ _ Hmap) as (Hmc & Hmu & _).
  destruct (merge_name_ref_rows dashboard_py _ _ _ Hmc Hmu Hrev) as (_ & Hrc & _).
  destruct (merge_name_ref_rows dashboard_py _ _ _ Hmc Hmu Hncm) as (_ & Hnrc & _).
  apply where_not_isin_Ok in Hnc as (_ & Hncc & _).
  apply where_isin_Ok in Hco as (_ & Hcoc & _).
  split; [done|]. rewrite Hrc, <-Hncc, <-Hnrc.
  apply assign_from_Ok in Hqty as (Hsub & ->).
  rewrite columns_assign_present by done.
  destruct (Dashboard.combo_exploded_list _ _ _); [done|].
  apply pd_concat_columns_sub. cbn [columns]. intros x.
  rewrite elem_of_series_labels, Hnrc, Hncc, Hcoc, elem_of_app.
  intros [?|Hx]; [by left|].
  repeat (apply elem_of_cons in Hx as [->|Hx];
          [first [right; compute_done
                 | left; by apply (qty_in_cleaned dashboard_py s cl)]|]).
  by apply elem_of_nil in Hx.
Qed.

Lemma script_schema s n c rev qty :
  SalesAnalysis.prepare_data s n c = Ok (rev, qty) →
  ∃ cl, SalesAnalysis.clean_sales s = Ok cl
    ∧ columns rev = columns cl ++ name_columns ∧ columns qty = columns rev.
Proof.
  unfold SalesAnalysis.prepare_data. intros Hv.
  apply bind_Ok in Hv as (cl & Hcl & Hv).
  apply bind_Ok in Hv as (mapping & Hmap & Hv).
  apply bind_Ok in Hv as (rev' & Hrev & Hv).
  apply bind_Ok in Hv as (crc & Hcrc & Hv).
  apply bind_Ok in Hv as (names & Hnames & Hv).
  apply bind_Ok in Hv as (nc & Hnc & Hv).
  apply bind_Ok in Hv as (ncm & Hncm & Hv).
  apply bind_Ok in Hv as (co & Hco & Hv).
  apply bind_Ok in Hv as (E & HE & Hv).
  injection Hv as <- <-.
  exists cl. split; [done|].
  destruct (name_ref_clean_spec _ _ Hmap) as (Hmc & Hmu & _).
  destruct (merge_name_ref_rows sales_analysis_py _ _ _ Hmc Hmu Hrev) as (Hfresh & Hrc & _).
  destruct (merge_name_ref_rows sales_analysis_py _ _ _ Hmc Hmu Hncm) as (_ & Hnrc & _).
  apply where_not_isin_Ok in Hnc as (_ & Hncc & _).
  apply where_isin_Ok in Hco as (_ & Hcoc & _).
  split; [done|]. rewrite Hrc, <-Hncc, <-Hnrc.
  destruct (negb (SalesAnalysis.empty E)); [|done].
  apply pd_concat_columns_sub. intros x Hx.
  match type of HE with SalesAnalysis.combo_exploded _ _ ?L = _ =>
    destruct (script_combo_exploded_returns mapping co L Hmc) as (E' & HE' & Hcols) end.
  { rewrite Hcoc. apply Hfresh. compute_done. }
  { rewrite Hcoc. apply Hfresh. compute_done. }
  rewrite HE in HE'. injection HE' as <-.
  rewrite Hnrc, Hncc, elem_of_app.
  destruct (Hcols x Hx) as [Hin|Hin]; [left; by rewrite <-Hcoc|].
  repeat (apply elem_of_cons in Hin as [->|Hin];
          [first [right; compute_done
                 | left; by apply (qty_in_cleaned sales_analysis_py s cl)]|]).
  by apply elem_of_nil in Hin.
Qed.

(** X5.  Both views have the same columns, in the same order: those of the
    transaction sheet, then the columns the cleaner adds that the sheet has
    not, then the three name columns. *)
Theorem view_columns (p : program) (s n c rev qty : DataFrame) :
  reconcile p s n c = Ok (rev, qty) →
  columns rev = series_labels (columns s) (cleaner_columns p) ++ name_columns
  ∧ columns qty = columns rev.
Proof.
  intros Hv.
  assert (∃ cl, cleaned p s = Ok cl
            ∧ columns rev = columns cl ++ name_columns ∧ columns qty = columns rev)
    as (cl & Hcl & Hrev & Hqty)
    by (destruct p; [by eapply dashboard_schema | by eapply script_schema]).
  destruct (cleaned_spec _ _ _ Hcl) as (_ & Hc & _). by rewrite <-Hc.
Qed.

End schema.

Section rows_facts.
Context `{PandasLib}.

Lemma Forall2_compose {A B C} (R : A → B → Prop) (S : B → C → Prop) (T : A → C → Prop)
    (l : list A) (k : list B) (m : list C) :
  (∀ x y z, R x y → S y z → T x z) →
  Forall2 R l k → Forall2 S k m → Forall2 T l m.
Proof.
  intros HT HR. revert m. induction HR as [|x y l k Hxy _ IH]; intros m HS.
  - apply Forall2_nil_inv_l in HS as ->. constructor.
  - apply Forall2_cons_inv_l in HS as (z & m' & Hyz & HS & ->).
    constructor; [by eapply HT | by apply IH].
Qed.

Lemma Forall2_filter {A B} (R : A → B → Prop) (P : A → Prop) (Q : B → Prop)
    `{∀ x, Decision (P x)} `{∀ y, Decision (Q y)} (l : list A) (k : list B) :
  (∀ x y, R x y → P x ↔ Q y) →
  Forall2 R l k → Forall2 R (filter P l) (filter Q k).
Proof.
  intros HPQ. induction 1 as [|x y l k Hxy _ IH]; [constructor|].
  rewrite !filter_cons. pose proof (HPQ x y Hxy) as Hiff.
  destruct (decide (P x)), (decide (Q y)); try tauto. by constructor.
Qed.

Lemma lookup_key_rename on on' k (f : Row → Row) rs :
  (∀ r, cellof (f r) on' = cellof r on) →
  lookup_key on' k (f <$> rs) = f <$> lookup_key on k rs.
Proof.
  intros Hf. unfold lookup_key. rewrite filter_fmap.
  rewrite (filter_ext_in _ (λ r, same_key k (cellof r on))) by (intros r _; by rewrite Hf).
  by destruct (filter _ rs).
Qed.

(** The row the item mapping has for a key is the first row the item
    reference has for it, under the new column names. *)
Lemma item_mapping_lookup p n mapping k :
  item_mapping p n = Ok mapping →
  let m' := lookup_key "Item Name" k (rows mapping) in
  let m := lookup_key "Item" k (rows n) in
  from_option (λ r, cellof r "Real Item Name") NaN m'
  = from_option (λ r, cellof r "Real Name") NaN m
  ∧ from_option (λ r, cellof r "Parent Category") NaN m'
    = from_option (λ r, cellof r "Parent") NaN m
  ∧ from_option (λ r, cellof r "Sub Category") NaN m'
    = from_option (λ r, cellof r "Sub Category") NaN m.
Proof.
  rewrite item_mapping_eq. unfold Dashboard.name_ref_clean. intros Hn.
  apply bind_Ok in Hn as (d0 & Hd0 & Hn). apply bind_Ok in Hn as (d1 & Hd1 & Hn).
  apply select_Ok in Hd0 as [Hc0 Hr0]. apply set_columns_Ok in Hd1 as [Hc1 Hr1].
  apply drop_duplicates_Ok in Hn as [_ Hr2].
  cbv zeta. rewrite Hr2, lookup_key_drop_dup by done.
  rewrite Hr1, Hc0, Hr0, <-list_fmap_compose.
  rewrite (lookup_key_rename "Item" "Item Name") by (intros r; simpl; by cellof_simpl).
  destruct (lookup_key "Item" k (rows n)) as [m|]; [|done]. simpl.
  split_and!; by cellof_simpl.
Qed.

(** Every row of either view comes from a cleaned transaction, and has its
    cells outside the columns the explosion may write. *)
Lemma view_row_origin p s n c rev qty v :
  reconcile p s n c = Ok (rev, qty) → v ∈ rows rev ∨ v ∈ rows qty →
  ∃ cl t, cleaned p s = Ok cl ∧ t ∈ rows cl ∧ same_outside (exploded_columns p) t v.
Proof.
  intros (cl & mapping & Hcl & _ & _ & Hrev & Hqty)%reconcile_views Hv.
  exists cl.
  assert (∀ t, kept_row p mapping t v → same_outside (exploded_columns p) t v) as Hkept.
  { intros t (Hout & _) col Hcol. apply Hout. intros Hin. apply Hcol.
    unfold exploded_columns. apply elem_of_app. left. revert Hin. unfold name_columns.
    rewrite !elem_of_cons. tauto. }
  destruct Hv as [Hv|Hv].
  - destruct (Forall2_elem_of_r _ _ _ _ Hrev Hv) as (t & Ht & Hk). eauto.
  - destruct (quantity_view_of_rows _ _ _ _ _ v Hqty Hv) as (t & Ht & [Hk|[comp HE]]);
      [eauto|]. destruct HE as (Hout & _). eauto.
Qed.

End rows_facts.

Section view_extras.
Context `{PandasLib}.

(** X6.  The names of a transaction in the Revenue View are those of the
    first row of the item reference for its item: the real name (the item
    name when that is missing or the item has no row), the parent and the
    sub-category ("Unknown" when missing or without a row).  Later rows of
    the reference for the same item are not used. *)
Theorem first_mapping_wins (p : program) (s n c rev qty : DataFrame) :
  reconcile p s n c = Ok (rev, qty) →
  Forall (λ v,
    let m := lookup_key "Item" (cellof v "Item Name") (rows n) in
    cellof v "Real Item Name"
    = fill (cellof v "Item Name") (from_option (λ r, cellof r "Real Name") NaN m)
    ∧ cellof v "Parent Category"
      = fill (Str "Unknown") (from_option (λ r, cellof r "Parent") NaN m)
    ∧ cellof v "Sub Category"
      = sub_str p (fill (Str "Unknown")
                     (from_option (λ r, cellof r "Sub Category") NaN m)))
    (rows rev).
Proof.
  intros (cl & mapping & Hcl & Hmap & _ & Hrev & _)%reconcile_views.
  apply Forall_forall. intros v Hv.
  destruct (Forall2_elem_of_r _ _ _ _ Hrev Hv) as (t & _ & Hout & Hr & Hp & Hs).
  assert (cellof v "Item Name" = cellof t "Item Name") as -> by (apply Hout; compute_done).
  destruct (item_mapping_lookup p n mapping (cellof t "Item Name") Hmap) as (Er & Ep & Es).
  cbv zeta in *. by rewrite <-Er, <-Ep, <-Es.
Qed.

Lemma is_combo_item c (t v : Row) :
  cellof v "Item Name" = cellof t "Item Name" → is_combo c v = is_combo c t.
Proof. unfold is_combo. by intros ->. Qed.

Lemma component_rows_item c (t v : Row) :
  cellof v "Item Name" = cellof t "Item Name" → component_rows c v = component_rows c t.
Proof. unfold component_rows. by intros ->. Qed.

Lemma filter_all {A} (P : A → Prop) `{∀ x, Decision (P x)} (l : list A) :
  Forall P l → filter P l = l.
Proof.
  induction 1 as [|x l Hx _ IH]; [done|]. by rewrite filter_cons_True, IH.
Qed.

(** The rows of the Quantity View that are not combo sales are its first
    rows, one per cleaned transaction that is not a combo sale. *)
Lemma quantity_view_plain p c cl qty mapping :
  quantity_view_of c cl qty (kept_row p mapping) (exploded_row p mapping) →
  Forall2 (kept_row p mapping)
    (filter (λ t, negb (is_combo c t)) (rows cl))
    (filter (λ v, negb (is_combo c v)) (rows qty)).
Proof.
  intros (plain & exploded & Hq & Hplain & Hexp). rewrite Hq, filter_app.
  rewrite (filter_all _ plain).
  2:{ apply Forall_forall. intros v Hv.
      destruct (Forall2_elem_of_r _ _ _ _ Hplain Hv) as (t & Ht & Hout & _).
      apply list_elem_of_filter in Ht as [Ht _].
      rewrite (is_combo_item c t v); [done|]. apply Hout. compute_done. }
  rewrite (filter_none _ (concat exploded)); [by rewrite app_nil_r|].
  apply Forall_forall. intros v Hv.
  apply list_elem_of_In, in_concat in Hv as (outs & Houts & Hv).
  apply list_elem_of_In in Houts, Hv.
  destruct (Forall2_elem_of_r _ _ _ _ Hexp Houts) as (t & Ht & Hall).
  destruct (Forall2_elem_of_r _ _ _ _ Hall Hv) as (comp & _ & Hout & _).
  apply list_elem_of_filter in Ht as [Ht _].
  rewrite (is_combo_item c t v).
  - intros Hn. by destruct (is_combo c t).
  - apply Hout. destruct p; compute_done.
Qed.

(** X7.  The two views differ only in the combo sales: the rows of the
    Quantity View whose item is not a combo name are, cell for cell and in
    order, the rows of the Revenue View whose item is not a combo name. *)
Theorem non_combo_rows_agree (p : program) (s n c rev qty : DataFrame) :
  reconcile p s n c = Ok (rev, qty) →
  Forall2 (λ vr vq, ∀ col, cellof vq col = cellof vr col)
    (filter (λ v, negb (is_combo c v)) (rows rev))
    (filter (λ v, negb (is_combo c v)) (rows qty)).
Proof.
  intros (cl & mapping & Hcl & _ & _ & Hrev & Hqty)%reconcile_views.
  apply quantity_view_plain in Hqty.
  assert (Forall2 (λ vr t, kept_row p mapping t vr)
            (filter (λ v, negb (is_combo c v)) (rows rev))
            (filter (λ t, negb (is_combo c t)) (rows cl))) as Hrev'.
  { apply Forall2_flip.
    apply (Forall2_filter _ (λ t, negb (is_combo c t)) (λ v, negb (is_combo c v)));
      [|done].
    intros t v (Hout & _). rewrite (is_combo_item c t v); [done|].
    apply Hout. compute_done. }
  eapply Forall2_compose; [|exact Hrev'|exact Hqty].
  intros vr t vq (Hout & Hr & Hp & Hs) (Hout' & Hr' & Hp' & Hs') col.
  destruct (decide (col ∈ name_columns)) as [Hin|Hin].
  - unfold name_columns in Hin.
    repeat (apply elem_of_cons in Hin as [->|Hin]; [congruence|]).
    by apply elem_of_nil in Hin.
  - by rewrite Hout, Hout'.
Qed.

End view_extras.

Section view_extras2.
Context `{PandasLib}.

Lemma length_concat_sum {A} (ls : list (list A)) :
  length (concat ls) = sum_list (length <$> ls).
Proof. induction ls as [|l ls IH]; [done|]. simpl. by rewrite length_app, IH. Qed.

Lemma length_filter_split {A} (b : A → bool) (l : list A) :
  length (filter (λ x, b x) l) + length (filter (λ x, negb (b x)) l) = length l.
Proof.
  induction l as [|x l IH]; [done|]. rewrite !filter_cons.
  destruct (b x); simpl; lia.
Qed.

Lemma Forall2_fmap_eq {A B C} (R : A → B → Prop) (f : A → C) (g : B → C)
    (l : list A) (k : list B) :
  (∀ x y, R x y → f x = g y) → Forall2 R l k → f <$> l = g <$> k.
Proof. intros Hfg. induction 1 as [|x y l k Hxy _ IH]; [done|]. cbn. by rewrite (Hfg x y), IH. Qed.

(** X8.  The Quantity View has one row for each row of the Revenue View
    that is not a combo sale and, for each that is, as many rows as the combo
    reference has component rows for its item. *)
Theorem quantity_row_count (p : program) (s n c rev qty : DataFrame) :
  reconcile p s n c = Ok (rev, qty) →
  length (rows qty) + length (filter (λ v, is_combo c v) (rows rev))
  = length (rows rev)
    + sum_list ((λ v, length (component_rows c v))
                  <$> filter (λ v, is_combo c v) (rows rev)).
Proof.
  intros (cl & mapping & Hcl & _ & _ & Hrev & plain & exploded & Hq & Hplain & Hexp)
    %reconcile_views.
  assert (∀ t v, kept_row p mapping t v → cellof v "Item Name" = cellof t "Item Name")
    as Hitem by (intros t v (Hout & _); apply Hout; compute_done).
  assert (Forall2 (kept_row p mapping)
            (filter (λ t, is_combo c t) (rows cl))
            (filter (λ v, is_combo c v) (rows rev))) as Hcombo.
  { apply (Forall2_filter _ (λ t, is_combo c t) (λ v, is_combo c v)); [|done].
    intros t v Hk. by rewrite (is_combo_item c t v) by by apply Hitem. }
  assert (Forall2 (kept_row p mapping)
            (filter (λ t, negb (is_combo c t)) (rows cl))
            (filter (λ v, negb (is_combo c v)) (rows rev))) as Hnon.
  { apply (Forall2_filter _ (λ t, negb (is_combo c t)) (λ v, negb (is_combo c v)));
      [|done].
    intros t v Hk. by rewrite (is_combo_item c t v) by by apply Hitem. }
  assert ((λ v, length (component_rows c v)) <$> filter (λ v, is_combo c v) (rows rev)
          = length <$> exploded) as ->.
  { trans ((λ t, length (component_rows c t)) <$> filter (λ t, is_combo c t) (rows cl)).
    - symmetry. eapply Forall2_fmap_eq; [|exact Hcombo].
      intros t v Hk. cbv beta. by rewrite (component_rows_item c t v) by by apply Hitem.
    - eapply Forall2_fmap_eq; [|exact Hexp].
      intros t outs Houts. exact (Forall2_length _ _ _ Houts). }
  rewrite <-length_concat_sum, Hq, length_app.
  rewrite <-(Forall2_length _ _ _ Hplain), (Forall2_length _ _ _ Hnon).
  pose proof (length_filter_split (is_combo c) (rows rev)). lia.
Qed.

(** The cells of the Revenue View outside the name columns, from the sheet. *)
Lemma revenue_cells p s n c rev qty :
  reconcile p s n c = Ok (rev, qty) →
  ∃ mapping, item_mapping p n = Ok mapping
    ∧ Forall2 (λ r v, (∀ col, col ∉ name_columns → cellof v col = clean_cell p s r col)
                      ∧ ∃ t, kept_row p mapping t v
                          ∧ cellof t "Item Name" = cellof r "Item Name")
        (successful s) (rows rev).
Proof.
  intros (cl & mapping & Hcl & Hmap & _ & Hrev & _)%reconcile_views.
  exists mapping. split; [done|].
  destruct (cleaned_spec _ _ _ Hcl) as (_ & _ & Hrows).
  eapply Forall2_compose; [|exact Hrows|exact Hrev].
  intros r t v Hrt Hk. split.
  - intros col Hcol. destruct Hk as (Hout & _). by rewrite Hout, Hrt.
  - exists t. split; [done|]. rewrite Hrt. apply clean_cell_other. destruct p; compute_done.
Qed.

(** X9.  Outside the three name columns, the Revenue View has one row per
    successful row of the sheet, in order, with the cleaner's cell in each
    column: the parsed date and timestamp, the six amounts coerced to
    numbers, the calendar fields of the parsed date and timestamp, the sales
    channel, the outlet, and the cell of the sheet in every other column. *)
Theorem revenue_view_cells (p : program) (s n c rev qty : DataFrame) :
  reconcile p s n c = Ok (rev, qty) →
  Forall2 (λ r v, ∀ col, col ∉ name_columns → cellof v col = clean_cell p s r col)
    (successful s) (rows rev).
Proof.
  intros (mapping & _ & Hrows)%revenue_cells.
  eapply Forall2_impl; [exact Hrows|]. by intros r v (Hcells & _).
Qed.

(** Every row of either view carries, outside the columns the explosion may
    write, the cleaner's cells of a successful row of the sheet. *)
Lemma view_row_source p s n c rev qty v :
  reconcile p s n c = Ok (rev, qty) → v ∈ rows rev ∨ v ∈ rows qty →
  ∃ r, r ∈ successful s
    ∧ ∀ col, col ∉ exploded_columns p → cellof v col = clean_cell p s r col.
Proof.
  intros Hv Hin. destruct (view_row_origin _ _ _ _ _ _ _ Hv Hin) as (cl & t & Hcl & Ht & Hout).
  destruct (cleaned_spec _ _ _ Hcl) as (_ & _ & Hrows).
  destruct (Forall2_elem_of_r _ _ _ _ Hrows Ht) as (r & Hr & Hrt).
  exists r. split; [done|]. intros col Hcol. by rewrite Hout, Hrt.
Qed.

(** X10.  In every row of either view the sales channel is "Delivery" when
    the area of the row is "Swiggy" and "In-Shop" otherwise; except that the
    dashboard, when the sheet has an "Online / Offline" column, copies that
    column instead, missing values included. *)
Theorem sales_channel_values (p : program) (s n c rev qty : DataFrame) :
  reconcile p s n c = Ok (rev, qty) →
  Forall (λ v,
    cellof v "Sales Channel"
    = match p with
      | dashboard_py =>
          if has_column s "Online / Offline" then cellof v "Online / Offline"
          else if py_eq (cellof v "Area") (Str "Swiggy") then Str "Delivery"
               else Str "In-Shop"
      | sales_analysis_py =>
          if py_eq (cellof v "Area") (Str "Swiggy") then Str "Delivery"
          else Str "In-Shop"
      end)
    (rows rev ++ rows qty).
Proof.
  intros Hv. apply Forall_forall. intros v Hin%elem_of_app.
  destruct (view_row_source _ _ _ _ _ _ _ Hv Hin) as (r & _ & Hcells).
  rewrite !Hcells by (destruct p; compute_done).
  unfold clean_cell. destruct p; cbv iota; decide_cols; [|done].
  by destruct (has_column s "Online / Offline").
Qed.


End view_extras2.

Section view_extras3.
Context `{PandasLib}.

Lemma fill_Unknown_notna x : fill (Str "Unknown") x ≠ NaN.
Proof. by destruct x. Qed.

Lemma sub_str_notna p x : x ≠ NaN → sub_str p x ≠ NaN.
Proof. by destruct p, x. Qed.

Lemma kept_row_named p mapping t v :
  kept_row p mapping t v →
  cellof v "Parent Category" ≠ NaN ∧ cellof v "Sub Category" ≠ NaN
  ∧ (cellof v "Real Item Name" = NaN → cellof v "Item Name" = NaN).
Proof.
  intros (Hout & Hr & Hp & Hs). rewrite Hr, Hp, Hs. split_and!.
  - apply fill_Unknown_notna.
  - apply sub_str_notna, fill_Unknown_notna.
  - rewrite (Hout "Item Name") by compute_done. unfold fill.
    by destruct (isna _) eqn:Hna; [|intros Hx; rewrite Hx in Hna].
Qed.

(** X12.  In the Revenue View the parent category and the sub-category are
    never missing, and the real item name is missing only where the item name
    is.  In the Quantity View the sub-category is never missing, nor is, in
    the script, the parent category. *)
Theorem names_never_missing (p : program) (s n c rev qty : DataFrame) :
  reconcile p s n c = Ok (rev, qty) →
  Forall (λ v, cellof v "Parent Category" ≠ NaN ∧ cellof v "Sub Category" ≠ NaN
               ∧ (cellof v "Real Item Name" = NaN → cellof v "Item Name" = NaN))
    (rows rev)
  ∧ Forall (λ v, cellof v "Sub Category" ≠ NaN
                 ∧ (p = sales_analysis_py → cellof v "Parent Category" ≠ NaN))
      (rows qty).
Proof.
  intros (cl & mapping & Hcl & _ & _ & Hrev & Hqty)%reconcile_views. split.
  - apply Forall_forall. intros v Hv.
    destruct (Forall2_elem_of_r _ _ _ _ Hrev Hv) as (t & _ & Hk).
    by eapply kept_row_named.
  - apply Forall_forall. intros v Hv.
    destruct (quantity_view_of_rows _ _ _ _ _ v Hqty Hv) as (t & Ht & [Hk|[comp HE]]).
    + destruct (kept_row_named _ _ _ _ Hk) as (? & ? & _). by split.
    + destruct HE as (_ & _ & _ & Hcat). unfold component_categories in Hcat.
      destruct p.
      * split; [|done]. destruct (filter _ (rows mapping)); injection Hcat as _ ->;
          unfold as_str; by destruct (fill _ _).
      * injection Hcat as -> ->. split; [|intros _]; apply fill_Unknown_notna.
Qed.

Lemma clean_cell_agree s r col :
  has_column s "Online / Offline" = false → col ≠ "Outlet" →
  clean_cell dashboard_py s r col = clean_cell sales_analysis_py s r col.
Proof.
  intros Hon Hout. unfold clean_cell. rewrite Hon.
  by rewrite (bool_decide_eq_false_2 (col = "Outlet")) by done.
Qed.

(** X13.  On a sheet without an "Online / Offline" column the two programs
    build the same Revenue View, row for row, but for the outlet, which only
    the dashboard fills, and the sub-category, which the dashboard turns into
    a string. *)
Theorem programs_agree (s n c revd qtyd revs qtys : DataFrame) :
  reconcile dashboard_py s n c = Ok (revd, qtyd) →
  reconcile sales_analysis_py s n c = Ok (revs, qtys) →
  "Online / Offline" ∉ columns s →
  Forall2 (λ vd vs,
             (∀ col, col ∉ ["Outlet"; "Sub Category"] → cellof vd col = cellof vs col)
             ∧ cellof vd "Sub Category" = as_str (cellof vs "Sub Category"))
    (rows revd) (rows revs).
Proof.
  intros (md & Hmd & Hd)%revenue_cells (ms & Hms & Hs)%revenue_cells Hon%has_column_false.
  rewrite item_mapping_eq in Hmd, Hms. rewrite Hmd in Hms. injection Hms as <-.
  eapply Forall2_compose; [|apply Forall2_flip; exact Hd|exact Hs].
  intros vd r vs (Hcd & td & (_ & Hrd & Hpd & Hsd) & Hid)
    (Hcs & ts & (_ & Hrs & Hps & Hss) & His).
  rewrite <-His in Hid. rewrite Hid in *. split.
  - intros col Hcol. apply not_elem_of_cons in Hcol as [Hout Hcol].
    apply not_elem_of_cons in Hcol as [Hsub _].
    destruct (decide (col ∈ name_columns)) as [Hin|Hin].
    + unfold name_columns in Hin.
      repeat (apply elem_of_cons in Hin as [->|Hin]; [congruence|]).
      by apply elem_of_nil in Hin.
    + by rewrite Hcd, Hcs, clean_cell_agree.
  - by rewrite Hsd, Hss.
Qed.

End view_extras3.

Section view_extras4.
Context `{PandasLib}.



(** X16.  When no row of the combo reference has a missing item name, no
    transaction is lost: every row of the Revenue View has a row in the
    Quantity View with the same cells outside the columns the explosion may
    write. *)
Theorem no_transaction_lost (p : program) (s n c rev qty : DataFrame) :
  reconcile p s n c = Ok (rev, qty) →
  Forall (λ m, cellof m "Item Name" ≠ NaN) (rows c) →
  Forall (λ vr, ∃ vq, vq ∈ rows qty
                  ∧ ∀ col, col ∉ exploded_columns p → cellof vq col = cellof vr col)
    (rows rev).
Proof.
  intros (cl & mapping & Hcl & _ & _ & Hrev & plain & exploded & Hq & Hplain & Hexp)
    %reconcile_views Hnames.
  apply Forall_forall. intros vr Hvr.
  destruct (Forall2_elem_of_r _ _ _ _ Hrev Hvr) as (t & Ht & Houtr & _).
  assert (∀ col, col ∉ exploded_columns p → cellof vr col = cellof t col) as Hvrt.
  { intros col Hcol. apply Houtr. intros Hin. apply Hcol. unfold exploded_columns.
    apply elem_of_app. left. revert Hin. unfold name_columns. rewrite !elem_of_cons. tauto. }
  destruct (is_combo c t) eqn:Hcombo.
  - assert (t ∈ filter (λ t, is_combo c t) (rows cl)) as Hin
      by (apply list_elem_of_filter; by rewrite Hcombo).
    apply list_elem_of_lookup in Hin as (i & Hi).
    destruct (Forall2_lookup_l _ _ _ _ _ Hexp Hi) as (outs & Houts & Hall).
    assert (cellof t "Item Name" ≠ NaN) as Hname.
    { unfold is_combo, isin, values in Hcombo.
      apply existsb_exists in Hcombo as (k & Hk & Hsame).
      apply list_elem_of_In, list_elem_of_fmap in Hk as (m & -> & Hm).
      rewrite Forall_forall in Hnames. specialize (Hnames m Hm).
      intros Hna. rewrite Hna in Hsame. by destruct (cellof m "Item Name"). }
    pose proof (combo_has_components c t Hcombo Hname) as Hcomp.
    destruct (component_rows c t) as [|comp comps] eqn:Hcs; [done|].
    apply Forall2_cons_inv_l in Hall as (out & outs' & (Hout & _) & _ & ->).
    exists out. split.
    + rewrite Hq. apply elem_of_app. right. apply list_elem_of_In, in_concat.
      exists (out :: outs'). split; apply list_elem_of_In; [|by left].
      by eapply list_elem_of_lookup_2.
    + intros col Hcol. by rewrite Hout, Hvrt.
  - assert (t ∈ filter (λ t, negb (is_combo c t)) (rows cl)) as Hin
      by (apply list_elem_of_filter; by rewrite Hcombo).
    apply list_elem_of_lookup in Hin as (i & Hi).
    destruct (Forall2_lookup_l _ _ _ _ _ Hplain Hi) as (vq & Hvq & Houtq & _).
    exists vq. split.
    + rewrite Hq. apply elem_of_app. left. by eapply list_elem_of_lookup_2.
    + intros col Hcol. rewrite Hvrt by done. apply Houtq. intros Hin. apply Hcol.
      unfold exploded_columns. apply elem_of_app. left. revert Hin. unfold name_columns.
      rewrite !elem_of_cons. tauto.
Qed.

End view_extras4.

(* ===================================================================== *)
(** * The further properties on the sample data *)
(* ===================================================================== *)

Lemma sample_dashboard_run :
  @reconcile Sample.lib dashboard_py Sample.sales Sample.name_ref Sample.combo_ref
  = Ok (SampleRuns.dashboard_views.1, SampleRuns.dashboard_views.2).
Proof. run. Qed.

Lemma sample_script_run :
  @reconcile Sample.lib sales_analysis_py Sample.sales Sample.name_ref Sample.combo_ref
  = Ok (SampleRuns.script_views.1, SampleRuns.script_views.2).
Proof. run. Qed.




Lemma missing_reference_columns_witness :
  Forall (λ x, x ∈ columns Sample.sales) (cleaner_reads dashboard_py Sample.sales)
  ∧ filter (λ x, x ∉ columns Faulty.name_ref_without_categories) reference_columns
    = ["Parent"; "Sub Category"]
  ∧ @reconcile Sample.lib dashboard_py Sample.sales Faulty.name_ref_without_categories
      Sample.combo_ref = Raise (KeyError ["Parent"; "Sub Category"]).
Proof.
  assert (Forall (λ x, x ∈ columns Sample.sales) (cleaner_reads dashboard_py Sample.sales))
    as Hreads by compute_done.
  assert (filter (λ x, x ∉ columns Faulty.name_ref_without_categories) reference_columns
          = ["Parent"; "Sub Category"]) as Hm by (vm_compute; reflexivity).
  split_and!; [exact Hreads | exact Hm |].
  exact (@missing_reference_columns Sample.lib dashboard_py Sample.sales
           Faulty.name_ref_without_categories Sample.combo_ref "Parent" ["Sub Category"]
           Hreads Hm).
Defined.


Lemma view_columns_witness :
  ∃ rev qty,
    @reconcile Sample.lib sales_analysis_py Sample.sales Sample.name_ref Sample.combo_ref
    = Ok (rev, qty)
    ∧ columns rev
      = series_labels (columns Sample.sales) (cleaner_columns sales_analysis_py)
        ++ name_columns
    ∧ columns qty = columns rev.
Proof.
  exists SampleRuns.script_views.1, SampleRuns.script_views.2.
  split; [exact sample_script_run|].
  exact (@view_columns Sample.lib _ _ _ _ _ _ sample_script_run).
Defined.

Lemma first_mapping_wins_witness :
  ∃ rev qty,
    @reconcile Sample.lib dashboard_py Sample.sales Sample.name_ref Sample.combo_ref
    = Ok (rev, qty)
    ∧ Forall (λ v,
        let m := lookup_key "Item" (cellof v "Item Name") (rows Sample.name_ref) in
        cellof v "Real Item Name"
        = fill (cellof v "Item Name") (from_option (λ r, cellof r "Real Name") NaN m)
        ∧ cellof v "Parent Category"
          = fill (Str "Unknown") (from_option (λ r, cellof r "Parent") NaN m)
        ∧ cellof v "Sub Category"
          = @sub_str Sample.lib dashboard_py
              (fill (Str "Unknown") (from_option (λ r, cellof r "Sub Category") NaN m)))
        (rows rev).
Proof.
  exists SampleRuns.dashboard_views.1, SampleRuns.dashboard_views.2.
  split; [exact sample_dashboard_run|].
  exact (@first_mapping_wins Sample.lib _ _ _ _ _ _ sample_dashboard_run).
Defined.

Lemma non_combo_rows_agree_witness :
  ∃ rev qty,
    @reconcile Sample.lib dashboard_py Sample.sales Sample.name_ref Sample.combo_ref
    = Ok (rev, qty)
    ∧ Forall2 (λ vr vq, ∀ col, cellof vq col = cellof vr col)
        (filter (λ v, negb (is_combo Sample.combo_ref v)) (rows rev))
        (filter (λ v, negb (is_combo Sample.combo_ref v)) (rows qty)).
Proof.
  exists SampleRuns.dashboard_views.1, SampleRuns.dashboard_views.2.
  split; [exact sample_dashboard_run|].
  exact (@non_combo_rows_agree Sample.lib _ _ _ _ _ _ sample_dashboard_run).
Defined.

Lemma quantity_row_count_witness :
  ∃ rev qty,
    @reconcile Sample.lib sales_analysis_py Sample.sales Sample.name_ref Sample.combo_ref
    = Ok (rev, qty)
    ∧ length (rows qty) + length (filter (λ v, is_combo Sample.combo_ref v) (rows rev))
      = length (rows rev)
        + sum_list ((λ v, length (component_rows Sample.combo_ref v))
                      <$> filter (λ v, is_combo Sample.combo_ref v) (rows rev)).
Proof.
  exists SampleRuns.script_views.1, SampleRuns.script_views.2.
  split; [exact sample_script_run|].
  exact (@quantity_row_count Sample.lib _ _ _ _ _ _ sample_script_run).
Defined.

Lemma revenue_view_cells_witness :
  ∃ rev qty,
    @reconcile Sample.lib dashboard_py Sample.sales Sample.name_ref Sample.combo_ref
    = Ok (rev, qty)
    ∧ Forall2 (λ r v, ∀ col, col ∉ name_columns →
                 cellof v col = @clean_cell Sample.lib dashboard_py Sample.sales r col)
        (successful Sample.sales) (rows rev).
Proof.
  exists SampleRuns.dashboard_views.1, SampleRuns.dashboard_views.2.
  split; [exact sample_dashboard_run|].
  exact (@revenue_view_cells Sample.lib _ _ _ _ _ _ sample_dashboard_run).
Defined.

Lemma sales_channel_values_witness :
  ∃ rev qty,
    @reconcile Sample.lib sales_analysis_py Sample.sales Sample.name_ref Sample.combo_ref
    = Ok (rev, qty)
    ∧ Forall (λ v, cellof v "Sales Channel"
                   = if py_eq (cellof v "Area") (Str "Swiggy") then Str "Delivery"
                     else Str "In-Shop")
        (rows rev ++ rows qty).
Proof.
  exists SampleRuns.script_views.1, SampleRuns.script_views.2.
  split; [exact sample_script_run|].
  exact (@sales_channel_values Sample.lib _ _ _ _ _ _ sample_script_run).
Defined.


Lemma names_never_missing_witness :
  ∃ rev qty,
    @reconcile Sample.lib dashboard_py Sample.sales Sample.name_ref Sample.combo_ref
    = Ok (rev, qty)
    ∧ Forall (λ v, cellof v "Parent Category" ≠ NaN ∧ cellof v "Sub Category" ≠ NaN
                   ∧ (cellof v "Real Item Name" = NaN → cellof v "Item Name" = NaN))
        (rows rev)
    ∧ Forall (λ v, cellof v "Sub Category" ≠ NaN
                   ∧ (dashboard_py = sales_analysis_py →
                      cellof v "Parent Category" ≠ NaN))
        (rows qty).
Proof.
  exists SampleRuns.dashboard_views.1, SampleRuns.dashboard_views.2.
  split; [exact sample_dashboard_run|].
  exact (@names_never_missing Sample.lib _ _ _ _ _ _ sample_dashboard_run).
Defined.

Lemma programs_agree_witness :
  ∃ revd qtyd revs qtys,
    @reconcile Sample.lib dashboard_py Sample.sales Sample.name_ref Sample.combo_ref
    = Ok (revd, qtyd)
    ∧ @reconcile Sample.lib sales_analysis_py Sample.sales Sample.name_ref
        Sample.combo_ref = Ok (revs, qtys)
    ∧ ("Online / Offline" ∉ columns Sample.sales)
    ∧ Forall2 (λ vd vs,
                 (∀ col, col ∉ ["Outlet"; "Sub Category"] → cellof vd col = cellof vs col)
                 ∧ cellof vd "Sub Category" = @as_str Sample.lib (cellof vs "Sub Category"))
        (rows revd) (rows revs).
Proof.
  exists SampleRuns.dashboard_views.1, SampleRuns.dashboard_views.2,
    SampleRuns.script_views.1, SampleRuns.script_views.2.
  assert ("Online / Offline" ∉ columns Sample.sales) as Hon by compute_done.
  split_and!; [exact sample_dashboard_run | exact sample_script_run | exact Hon |].
  exact (@programs_agree Sample.lib _ _ _ _ _ _ _ sample_dashboard_run sample_script_run
           Hon).
Defined.


Lemma no_transaction_lost_witness :
  ∃ rev qty,
    @reconcile Sample.lib dashboard_py Sample.sales Sample.name_ref Sample.combo_ref
    = Ok (rev, qty)
    ∧ Forall (λ m, cellof m "Item Name" ≠ NaN) (rows Sample.combo_ref)
    ∧ Forall (λ vr, ∃ vq, vq ∈ rows qty
                      ∧ ∀ col, col ∉ exploded_columns dashboard_py →
                          cellof vq col = cellof vr col)
        (rows rev).
Proof.
  exists SampleRuns.dashboard_views.1, SampleRuns.dashboard_views.2.
  assert (Forall (λ m, cellof m "Item Name" ≠ NaN) (rows Sample.combo_ref)) as Hn
    by compute_done.
  split_and!; [exact sample_dashboard_run | exact Hn |].
  exact (@no_transaction_lost Sample.lib _ _ _ _ _ _ sample_dashboard_run Hn).
Defined.
